(** * x402 provider node: payment-gated metered dispatch

    A shallow embedding of the provider node (server.ts, middleware.ts,
    registry-client.ts, errors.ts) and the properties of its payment
    verifier, its call pipeline, its statistics and its registry lifecycle.

    JavaScript numbers are IEEE-754 binary64 values, so they are modelled by
    Rocq's primitive floats.  Asynchronous code is modelled by a small
    state/exception/trace monad: a promise that never settles leaves the
    computation [Stuck], a rejection is an [Abrupt] completion that the
    nearest [try_catch] handles, and every externally visible action (chain
    query, registry request, handler invocation, response, timer) is appended
    to a chronological trace.  Console output is not modelled. *)

From Stdlib Require Import String List Bool Floats ZArith Lia Uint63 Permutation.
Import ListNotations.
Open Scope string_scope.

(** ** JavaScript values *)

#[warnings="-register-all"]
Inductive JsVal : Type :=
| JUndefined
| JNull
| JBool (b : bool)
| JNumber (f : float)
| JString (s : string)
| JArray (items : list JsVal)
| JObject (fields : list (string * JsVal)).

Fixpoint assoc {V : Type} (k : string) (m : list (string * V)) : option V :=
  match m with
  | [] => None
  | (k', v) :: rest => if String.eqb k' k then Some v else assoc k rest
  end.

(** [v.k] on a value that is neither [null] nor [undefined]. *)
Definition prop (v : JsVal) (k : string) : JsVal :=
  match v with
  | JObject fields =>
      match assoc k fields with Some x => x | None => JUndefined end
  | _ => JUndefined
  end.

Definition nullish (v : JsVal) : bool :=
  match v with JUndefined | JNull => true | _ => false end.

(** How an error message names a [null] or [undefined] value. *)
Definition nullish_name (v : JsVal) : string :=
  match v with JNull => "null" | _ => "undefined" end.

(** [v?.k] *)
Definition optp (v : JsVal) (k : string) : JsVal :=
  if nullish v then JUndefined else prop v k.

Definition truthy (v : JsVal) : bool :=
  match v with
  | JUndefined | JNull => false
  | JBool b => b
  | JNumber f => negb (PrimFloat.eqb f 0 || PrimFloat.is_nan f)
  | JString s => negb (String.eqb s "")
  | JArray _ | JObject _ => true
  end.

(** [typeof v === 'object'] *)
Definition typeof_object (v : JsVal) : bool :=
  match v with JNull | JArray _ | JObject _ => true | _ => false end.

(** [typeof v === 'string'] *)
Definition typeof_string (v : JsVal) : bool :=
  match v with JString _ => true | _ => false end.

(** The string held by a value known to be a string. *)
Definition string_of (v : JsVal) : string :=
  match v with JString s => s | _ => "" end.

(** [v === s] for a string [s]. *)
Definition strict_eq_string (v : JsVal) (s : string) : bool :=
  match v with JString s' => String.eqb s' s | _ => false end.

(** Whether the JSON text of the object [v] has a member [k]:
    [JSON.stringify] leaves out members whose value is [undefined]. *)
Definition json_includes (v : JsVal) (k : string) : bool :=
  match prop v k with JUndefined => false | _ => true end.

Definition jnum_opt (o : option float) : JsVal :=
  match o with Some f => JNumber f | None => JUndefined end.

Definition jstr_opt (o : option string) : JsVal :=
  match o with Some s => JString s | None => JUndefined end.

(** What the JavaScript platform and the Solana client library compute and
    the repository only calls: the string-to-number conversion behind
    [Number(...)], the string form of a value ([String(v)] and template
    literals), and the [PublicKey] constructor, which yields the base58
    address or throws. *)
Record Platform : Type := {
  StringToNumber : string -> float;
  ToString : JsVal -> string;
  PublicKey : JsVal -> option string
}.

(** [Number(v)] *)
Definition ToNumber (P : Platform) (v : JsVal) : float :=
  match v with
  | JUndefined => nan
  | JNull => 0%float
  | JBool b => if b then 1%float else 0%float
  | JNumber f => f
  | JString s => StringToNumber P s
  | JArray items => StringToNumber P (ToString P (JArray items))
  | JObject _ => nan
  end.

(** ** Thrown values and promises *)

Inductive Thrown : Type :=
| ErrorObj (name message : string)
| NonError (v : JsVal).

(** [`${error}`] *)
Definition error_to_string (P : Platform) (e : Thrown) : string :=
  match e with
  | ErrorObj n m => if String.eqb m "" then n else n ++ ": " ++ m
  | NonError v => ToString P v
  end.

(** [error instanceof Error ? error.message : dflt] *)
Definition message_or (dflt : string) (e : Thrown) : string :=
  match e with ErrorObj _ m => m | NonError _ => dflt end.

Inductive Settled (A : Type) : Type :=
| Fulfilled (a : A)
| Rejected (e : Thrown)
| Pending.
Arguments Fulfilled {A} a.
Arguments Rejected {A} e.
Arguments Pending {A}.

(** The answer to a [fetch]: its success flag and the promise returned by
    [response.text()]. *)
Record HttpResponse : Type := {
  ok : bool;
  text : Settled string
}.

(** ** errors.ts *)

Definition ProviderNodeError (message : string) : Thrown :=
  ErrorObj "ProviderNodeError" message.

Definition APINotFoundError (api : string) : Thrown :=
  ErrorObj "APINotFoundError" ("API not found: " ++ api).

Definition RegistryError (message : string) : Thrown :=
  ErrorObj "RegistryError" message.

Definition TypeError (message : string) : Thrown :=
  ErrorObj "TypeError" message.

(** ** types.ts *)

Record ServerStats : Type := {
  uptime : float;
  requestsServed : float;
  totalEarnings : float;
  averageLatency : float;
  errorRate : float
}.

Record APIConfig : Type := {
  price : float;
  timeout : option float;
  rateLimit : option float
}.

(** How the promise returned by a handler behaves: it settles [after]
    milliseconds, or never.  A handler may resolve with a value that
    [JSON.stringify] refuses (a BigInt, a cyclic object); [e] is then the
    error [res.json] throws on it. *)
Inductive HandlerRun : Type :=
| Resolves (data : JsVal) (after : float)
| Rejects (e : Thrown) (after : float)
| NeverSettles
| ResolvesUnserialisable (e : Thrown) (after : float).

(** The value a handler resolved with, as [res.json] sees it. *)
Inductive Resolved : Type :=
| Serialisable (data : JsVal)
| Unserialisable (e : Thrown).

Definition APIHandler : Type := JsVal -> HandlerRun.

Record HandlerReg : Type := {
  handler : APIHandler;
  config : APIConfig
}.

(** The payment claim the middleware attaches to the request. *)
Record Payment : Type := {
  amount : option float;
  from : JsVal;
  signature : option string;
  chain : string
}.

Record Request : Type := {
  method : string;
  path : string;
  x_payment : option string;
  x_payment_chain : option string;
  body : JsVal;
  payment : option Payment
}.

Definition with_payment (req : Request) (p : Payment) : Request :=
  {| method := method req; path := path req; x_payment := x_payment req;
     x_payment_chain := x_payment_chain req; body := body req;
     payment := Some p |}.

(** ** The node's state and its observable actions *)

Inductive Event : Type :=
| EvGetParsedTransaction (sig : string)
| EvGetParsedAccountInfo (address : string)
| EvFetch (url : string) (payload : JsVal)
| EvHandlerCall (api : string) (params : JsVal)
| EvSetTimeout (ms : float)
| EvSetInterval (id : nat) (ms : float)
| EvClearInterval (id : nat)
| EvListen (port : float)
| EvClose
| EvRespond (status : nat) (payload : JsVal).

(** The closure state of [createProviderServer] together with the
    [heartbeatInterval] field of its [RegistryClient]; [timers] are the
    interval timers currently armed in the event loop. *)
Record Node : Type := {
  handlers : list (string * HandlerReg);
  stats : ServerStats;
  totalLatency : float;
  errorCount : float;
  server : option float;
  heartbeatInterval : option nat;
  timers : list nat;
  next_timer : nat
}.

Inductive Completion (A : Type) : Type :=
| Normal (a : A)
| Abrupt (e : Thrown)
| Stuck.
Arguments Normal {A} a.
Arguments Abrupt {A} e.
Arguments Stuck {A}.

Definition Task (A : Type) : Type := Node -> Completion A * Node * list Event.

Definition ret {A : Type} (a : A) : Task A := fun s => (Normal a, s, []).

Definition bind {A B : Type} (m : Task A) (k : A -> Task B) : Task B :=
  fun s =>
    match m s with
    | (Normal a, s1, t1) => let '(r, s2, t2) := k a s1 in (r, s2, (t1 ++ t2)%list)
    | (Abrupt e, s1, t1) => (Abrupt e, s1, t1)
    | (Stuck, s1, t1) => (Stuck, s1, t1)
    end.

Definition throw {A : Type} (e : Thrown) : Task A := fun s => (Abrupt e, s, []).

Definition try_catch {A : Type} (m : Task A) (h : Thrown -> Task A) : Task A :=
  fun s =>
    match m s with
    | (Abrupt e, s1, t1) => let '(r, s2, t2) := h e s1 in (r, s2, (t1 ++ t2)%list)
    | done => done
    end.

Definition emit (e : Event) : Task unit := fun s => (Normal tt, s, [e]).

Definition get : Task Node := fun s => (Normal s, s, []).

Definition modify (f : Node -> Node) : Task unit := fun s => (Normal tt, f s, []).

(** [await p] *)
Definition await {A : Type} (p : Settled A) : Task A :=
  match p with
  | Fulfilled a => ret a
  | Rejected e => throw e
  | Pending => fun s => (Stuck, s, [])
  end.

Declare Scope task_scope.
Delimit Scope task_scope with task.
Notation "x <- m ;; k" := (bind m (fun x => k))
  (at level 100, m at next level, right associativity) : task_scope.
Notation "m ;;; k" := (bind m (fun _ => k))
  (at level 100, right associativity) : task_scope.
Open Scope task_scope.

Definition result_of {A : Type} (r : Completion A * Node * list Event) : Completion A :=
  fst (fst r).
Definition state_of {A : Type} (r : Completion A * Node * list Event) : Node :=
  snd (fst r).
Definition trace_of {A : Type} (r : Completion A * Node * list Event) : list Event :=
  snd r.

(** [res.status(code).json(payload)] *)
Definition respond (code : nat) (payload : JsVal) : Task unit :=
  emit (EvRespond code payload).

(** A property read that throws on [null] and [undefined]. *)
Definition getp (v : JsVal) (k : string) : Task JsVal :=
  if nullish v
  then throw (TypeError ("Cannot read properties of " ++ nullish_name v
                         ++ " (reading '" ++ k ++ "')"))
  else ret (prop v k).

(** ** middleware.ts *)

Definition TOKEN_PROGRAM_ID : string := "TokenkegQfeZyiNwAJbNbGKPFXCWuBvf9Ss623VQ5DA".

(** An entry of [tx.transaction.message.instructions]: a parsed instruction
    carries a [parsed] member, a partially decoded one does not. *)
Inductive Instruction : Type :=
| ParsedInstruction (programId : string) (parsed : JsVal)
| PartiallyDecodedInstruction (programId : string).

Definition ix_programId (ix : Instruction) : string :=
  match ix with
  | ParsedInstruction p _ => p
  | PartiallyDecodedInstruction p => p
  end.

Definition ix_parsed (ix : Instruction) : JsVal :=
  match ix with
  | ParsedInstruction _ v => v
  | PartiallyDecodedInstruction _ => JUndefined
  end.

Definition has_parsed (ix : Instruction) : bool :=
  match ix with
  | ParsedInstruction _ _ => true
  | PartiallyDecodedInstruction _ => false
  end.

Record TxMeta : Type := { err : JsVal }.

Record ParsedTx : Type := {
  meta : option TxMeta;
  instructions : list Instruction
}.

(** The chain as seen through one RPC connection. *)
Record Connection : Type := {
  getParsedTransaction : string -> Settled (option ParsedTx);
  getParsedAccountInfo : string -> Settled JsVal
}.

Record VerifyResult : Type := {
  valid : bool;
  v_amount : option float;
  v_from : JsVal;
  v_signature : option string;
  v_error : option string
}.

Definition invalid (msg : string) : VerifyResult :=
  {| valid := false; v_amount := None; v_from := JUndefined;
     v_signature := None; v_error := Some msg |}.

(** [ix => 'parsed' in ix && ix.programId.toBase58() === TOKEN_PROGRAM_ID.toBase58()] *)
Definition is_token_instruction (ix : Instruction) : bool :=
  has_parsed ix && String.eqb (ix_programId ix) TOKEN_PROGRAM_ID.

(** [ix => ix.parsed?.type === 'transfer' || ix.parsed?.type === 'transferChecked'] *)
Definition is_transfer (ix : Instruction) : bool :=
  strict_eq_string (optp (ix_parsed ix) "type") "transfer"
  || strict_eq_string (optp (ix_parsed ix) "type") "transferChecked".

(** [tx.meta && tx.meta.err] *)
Definition tx_failed (tx : ParsedTx) : bool :=
  match meta tx with
  | Some m => truthy (err m)
  | None => false
  end.

(** [destinationAccountData.value?.data], given [destinationAccountData.value] *)
Definition account_data (value : JsVal) : JsVal := optp value "data".

(** [(data as any)?.parsed?.info?.owner] *)
Definition destination_owner (data : JsVal) : JsVal :=
  optp (optp (optp data "parsed") "info") "owner".

(** [amount || transferInstruction.parsed.info.tokenAmount?.amount] *)
Definition raw_amount (info : JsVal) : JsVal :=
  if truthy (prop info "amount") then prop info "amount"
  else optp (prop info "tokenAmount") "amount".

(** [req.headers['x-payment-chain'] || 'solana'] *)
Definition requested_chain (req : Request) : string :=
  match x_payment_chain req with
  | Some c => if String.eqb c "" then "solana" else c
  | None => "solana"
  end.

(** The claim attached to a call that presents no proof or the free-call
    placeholder. *)
Definition free_payment (req : Request) : Payment :=
  {| amount := Some 0%float; from := JString "unknown";
     signature := x_payment req; chain := requested_chain req |}.

Section Middleware.

Variable P : Platform.

Definition verifySolanaOnChainPayment (transactionSignature : string)
    (providerWallet : string) (connection : option Connection) : Task VerifyResult :=
  match connection with
  | None => ret (invalid "Solana connection not established.")
  | Some conn =>
    if String.eqb transactionSignature ""
    then ret (invalid "Invalid transaction signature: empty or not a string.")
    else
      try_catch
        (emit (EvGetParsedTransaction transactionSignature) ;;;
         tx <- await (getParsedTransaction conn transactionSignature) ;;
         match tx with
         | None => ret (invalid "Transaction not found.")
         | Some tx =>
           if tx_failed tx then ret (invalid "Transaction failed on-chain.")
           else
             let parsedInstructions := filter is_token_instruction (instructions tx) in
             match find is_transfer parsedInstructions with
             | None => ret (invalid "No valid SPL Token transfer instruction found.")
             | Some transferInstruction =>
               let info := prop (ix_parsed transferInstruction) "info" in
               if nullish info
               then throw (TypeError ("Cannot destructure property 'destination' of 'transferInstruction.parsed.info' as it is "
                                      ++ nullish_name info ++ "."))
               else
                 let destination := prop info "destination" in
                 let authority := prop info "authority" in
                 let providerPubkeyBase58 := providerWallet in
                 match PublicKey P destination with
                 | None => throw (ErrorObj "Error" "Invalid public key input")
                 | Some address =>
                   emit (EvGetParsedAccountInfo address) ;;;
                   destinationAccountData <- await (getParsedAccountInfo conn address) ;;
                   value <- getp destinationAccountData "value" ;;
                   let data := account_data value in
                   if negb (truthy data)
                   then ret (invalid "Destination token account not found.")
                   else
                     let destinationOwnerPubkey := destination_owner data in
                     if negb (truthy destinationOwnerPubkey)
                     then ret (invalid "Could not determine the owner of the destination token account.")
                     else if negb (strict_eq_string destinationOwnerPubkey providerPubkeyBase58)
                     then ret (invalid "Payment was sent to an incorrect account.")
                     else
                       let rawAmount := raw_amount info in
                       let amountPaid := (ToNumber P rawAmount / 1000000)%float in
                       if (amountPaid <? 0)%float || PrimFloat.is_nan amountPaid
                       then ret (invalid "Invalid payment amount.")
                       else ret {| valid := true;
                                   v_amount := Some amountPaid;
                                   v_from := authority;
                                   v_signature := Some transactionSignature;
                                   v_error := None |}
                 end
             end
         end)
        (fun error =>
           ret (invalid ("On-chain verification failed: "
                         ++ message_or "Unknown error" error)))
  end.

Definition verifyPayment (token : string) (chain : string) (wallet : string)
    (connections : list (string * Connection)) : Task VerifyResult :=
  if String.eqb chain "solana"
  then verifySolanaOnChainPayment token wallet (assoc "solana" connections)
  else ret (invalid "Unsupported chain for payment verification.").

Definition includes (chains : list string) (c : string) : bool :=
  existsb (String.eqb c) chains.

(** The connection map built when the middleware is created; [rpc] is the
    connection opened on the configured Solana endpoint. *)
Definition providersConnection (chains : list string) (rpc : Connection)
    : list (string * Connection) :=
  if includes chains "solana" then [("solana", rpc)] else [].

Definition jchains (chains : list string) : JsVal := JArray (map JString chains).

(** The request handler returned by [paymentMiddleware(wallet, chains)].
    [Some req'] means [next()] was called with the request as left by the
    middleware; [None] means the middleware answered the request itself. *)
Definition paymentMiddleware (wallet : string) (chains : list string)
    (rpc : Connection) (req : Request) : Task (option Request) :=
  if String.eqb (path req) "/health" then ret (Some req)
  else
    try_catch
      (let paymentToken := x_payment req in
       let chain := requested_chain req in
       match paymentToken with
       | None => ret (Some (with_payment req (free_payment req)))
       | Some token =>
         if String.eqb token "" || String.eqb token "free-api-call"
         then ret (Some (with_payment req (free_payment req)))
         else if negb (includes chains chain)
         then
           respond 400 (JObject [("error", JString "Unsupported chain");
                                 ("supported", jchains chains)]) ;;;
           ret None
         else
           payment <- verifyPayment token chain wallet
                        (providersConnection chains rpc) ;;
           if negb (valid payment)
           then
             respond 402 (JObject [("error", JString "Invalid payment");
                                   ("message", jstr_opt (v_error payment))]) ;;;
             ret None
           else
             ret (Some (with_payment req
               {| amount := v_amount payment; from := v_from payment;
                  signature := Some token; chain := chain |}))
       end)
      (fun error =>
         respond 402 (JObject [("error", JString "Payment verification failed");
                               ("message", JString (message_or "Unknown error" error))]) ;;;
         ret None).

End Middleware.

(** ** The JavaScript [Map] of handlers

    Keys keep their insertion order; setting an existing key replaces its
    value in place. *)

Fixpoint map_set {V : Type} (k : string) (v : V) (m : list (string * V))
    : list (string * V) :=
  match m with
  | [] => [(k, v)]
  | (k', v') :: rest =>
      if String.eqb k' k then (k, v) :: rest else (k', v') :: map_set k v rest
  end.

Definition map_keys {V : Type} (m : list (string * V)) : list string := map fst m.

(** ** Plain objects built from entries

    The own keys of a JavaScript object are enumerated with the array
    indices first, in ascending numeric order, and the other keys after
    them, in the order of their first insertion. *)

Fixpoint decimal_value (s : string) (acc : N) : option N :=
  match s with
  | EmptyString => Some acc
  | String c rest =>
      let n := Ascii.N_of_ascii c in
      if ((48 <=? n) && (n <=? 57))%N
      then decimal_value rest (acc * 10 + (n - 48))%N
      else None
  end.

(** The array index a key denotes: a canonical decimal numeral (no leading
    zero) of value at most 2^32 - 2. *)
Definition array_index (k : string) : option N :=
  match k with
  | EmptyString => None
  | String c rest =>
      if (Ascii.N_of_ascii c =? 48)%N
      then match rest with EmptyString => Some 0%N | _ => None end
      else match decimal_value k 0%N with
           | Some n => if (n <=? 4294967294)%N then Some n else None
           | None => None
           end
  end.

Fixpoint insert_index {V : Type} (n : N) (k : string) (v : V)
    (l : list (N * (string * V))) : list (N * (string * V)) :=
  match l with
  | [] => [(n, (k, v))]
  | (m, (k', v')) :: rest =>
      if String.eqb k' k then (n, (k, v)) :: rest
      else if (n <? m)%N then (n, (k, v)) :: l
      else (m, (k', v')) :: insert_index n k v rest
  end.

(** [o[k] = v] on an object held as its indexed and its named properties. *)
Definition object_set {V : Type} (o : list (N * (string * V)) * list (string * V))
    (kv : string * V) : list (N * (string * V)) * list (string * V) :=
  match array_index (fst kv) with
  | Some n => (insert_index n (fst kv) (snd kv) (fst o), snd o)
  | None => (fst o, map_set (fst kv) (snd kv) (snd o))
  end.

(** [Object.fromEntries(entries)], as the list of its properties in
    enumeration order. *)
Definition fromEntries {V : Type} (entries : list (string * V)) : list (string * V) :=
  let o := fold_left object_set entries ([], []) in
  (map snd (fst o) ++ snd o)%list.

(** ** The world a node runs in *)

(** What becomes of [app.listen(port, callback)]: the server listens and
    the callback runs; the call throws (a port out of range); or the server
    object is returned and the callback never runs (the server fails to
    bind). *)
Inductive ListenOutcome : Type :=
| Listening
| ListenThrows (e : Thrown)
| NeverListening.

(** What one activation of the node observes from outside: the registry's
    answer to a request, the fate of a listen on a port, the chain behind the
    RPC connection, the clock and the random request identifier. *)
Record Env : Type := {
  fetch : string -> JsVal -> Settled HttpResponse;
  listen : float -> ListenOutcome;
  rpc : Connection;
  requestId : string;
  clock_start : float;
  clock_end : float;
  iso_heartbeat : string;
  iso_response : string
}.

(** The constants captured by the closure of [createProviderServer], after
    the defaults of the configuration have been applied. *)
Record Config : Type := {
  walletPublicKey : string;
  port : float;
  publicUrl : option string;
  registry : string;
  chains : list string;
  defaultPrice : float;
  startTime : float
}.

Record ServerConfig : Type := {
  cfg_port : option float;
  cfg_publicUrl : option string;
  cfg_registry : option string;
  cfg_chains : option (list string);
  cfg_defaultPrice : option float
}.

Definition or_default {A : Type} (o : option A) (d : A) : A :=
  match o with Some a => a | None => d end.

(** The destructuring with defaults at the top of [createProviderServer];
    [pubkey] is the public key of the wallet loaded from the configured path
    and [now] the value of [Date.now()]. *)
Definition closure_of (c : ServerConfig) (pubkey : string) (now : float) : Config :=
  {| walletPublicKey := pubkey;
     port := or_default (cfg_port c) 9000%float;
     publicUrl := cfg_publicUrl c;
     registry := or_default (cfg_registry c) "http://localhost:3000/api";
     chains := or_default (cfg_chains c) ["solana"];
     defaultPrice := or_default (cfg_defaultPrice c) 0%float;
     startTime := now |}.

Definition initial_stats : ServerStats :=
  {| uptime := 0; requestsServed := 0; totalEarnings := 0;
     averageLatency := 0; errorRate := 0 |}.

Definition initial_node : Node :=
  {| handlers := []; stats := initial_stats; totalLatency := 0; errorCount := 0;
     server := None; heartbeatInterval := None; timers := []; next_timer := 0 |}.

(** State updates, one per assignment of the source. *)

Definition set_handlers (h : list (string * HandlerReg)) (s : Node) : Node :=
  {| handlers := h; stats := stats s; totalLatency := totalLatency s;
     errorCount := errorCount s; server := server s;
     heartbeatInterval := heartbeatInterval s; timers := timers s;
     next_timer := next_timer s |}.

Definition set_stats (st : ServerStats) (s : Node) : Node :=
  {| handlers := handlers s; stats := st; totalLatency := totalLatency s;
     errorCount := errorCount s; server := server s;
     heartbeatInterval := heartbeatInterval s; timers := timers s;
     next_timer := next_timer s |}.

Definition set_totalLatency (l : float) (s : Node) : Node :=
  {| handlers := handlers s; stats := stats s; totalLatency := l;
     errorCount := errorCount s; server := server s;
     heartbeatInterval := heartbeatInterval s; timers := timers s;
     next_timer := next_timer s |}.

Definition set_errorCount (e : float) (s : Node) : Node :=
  {| handlers := handlers s; stats := stats s; totalLatency := totalLatency s;
     errorCount := e; server := server s;
     heartbeatInterval := heartbeatInterval s; timers := timers s;
     next_timer := next_timer s |}.

Definition set_server (p : option float) (s : Node) : Node :=
  {| handlers := handlers s; stats := stats s; totalLatency := totalLatency s;
     errorCount := errorCount s; server := p;
     heartbeatInterval := heartbeatInterval s; timers := timers s;
     next_timer := next_timer s |}.

Definition set_timer_state (h : option nat) (ts : list nat) (n : nat) (s : Node) : Node :=
  {| handlers := handlers s; stats := stats s; totalLatency := totalLatency s;
     errorCount := errorCount s; server := server s;
     heartbeatInterval := h; timers := ts; next_timer := n |}.

(** [errorCount++] *)
Definition incr_errorCount : Task unit :=
  modify (fun s => set_errorCount (errorCount s + 1)%float s).

(** Starts a task without awaiting it: the caller goes on whatever becomes
    of the task. *)
Definition spawn {A : Type} (m : Task A) : Task unit :=
  fun s => let '(_, s1, t1) := m s in (Normal tt, s1, t1).

(** ** registry-client.ts *)

Record Health : Type := {
  h_latency : float;
  h_requestsServed : float;
  h_errors : float
}.

Definition heartbeat_payload (providerId : string) (health : Health)
    (timestamp : string) : JsVal :=
  JObject [("providerId", JString providerId);
           ("latency", JNumber (h_latency health));
           ("requestsServed", JNumber (h_requestsServed health));
           ("errors", JNumber (h_errors health));
           ("timestamp", JString timestamp)].

Record Registration : Type := {
  r_apis : list string;
  r_url : string;
  r_prices : list (string * float);
  r_chains : list string
}.

Definition register_payload (providerId : string) (data : Registration) : JsVal :=
  JObject [("providerId", JString providerId);
           ("apis", JArray (map JString (r_apis data)));
           ("url", JString (r_url data));
           ("prices", JObject (map (fun kv => (fst kv, JNumber (snd kv))) (r_prices data)));
           ("chains", JArray (map JString (r_chains data)))].

Section RegistryClient.

Variable P : Platform.
Variable registryUrl : string.
Variable providerId : string.

Definition heartbeat (env : Env) (health : Health) : Task unit :=
  try_catch
    (let url := registryUrl ++ "/heartbeat" in
     let payload := heartbeat_payload providerId health (iso_heartbeat env) in
     emit (EvFetch url payload) ;;;
     _ <- await (fetch env url payload) ;;
     ret tt)
    (fun error => ret tt).

Definition startHeartbeat : Task unit :=
  s <- get ;;
  let id := next_timer s in
  emit (EvSetInterval id 60000%float) ;;;
  modify (set_timer_state (Some id) (timers s ++ [id])%list (S id)).

(** The callback armed by [startHeartbeat], run by the event loop at each
    expiry of timer [id] while the timer is armed. *)
Definition heartbeat_tick (env : Env) (id : nat) : Task unit :=
  s <- get ;;
  if existsb (Nat.eqb id) (timers s)
  then spawn (heartbeat env
                {| h_latency := 0; h_requestsServed := 0; h_errors := 0 |})
  else ret tt.

Definition stopHeartbeat : Task unit :=
  s <- get ;;
  match heartbeatInterval s with
  | Some id =>
      emit (EvClearInterval id) ;;;
      modify (set_timer_state (heartbeatInterval s)
                (filter (fun t => negb (Nat.eqb t id)) (timers s)) (next_timer s))
  | None => ret tt
  end.

Definition register (env : Env) (data : Registration) : Task unit :=
  try_catch
    (let url := registryUrl ++ "/register" in
     let payload := register_payload providerId data in
     emit (EvFetch url payload) ;;;
     response <- await (fetch env url payload) ;;
     if negb (ok response)
     then
       error <- await (text response) ;;
       throw (RegistryError ("Registration failed: " ++ error))
     else startHeartbeat)
    (fun error =>
       throw (RegistryError ("Failed to register: " ++ error_to_string P error))).

Definition unregister (env : Env) : Task unit :=
  stopHeartbeat ;;;
  try_catch
    (let url := registryUrl ++ "/unregister" in
     let payload := JObject [("providerId", JString providerId)] in
     emit (EvFetch url payload) ;;;
     _ <- await (fetch env url payload) ;;
     ret tt)
    (fun error => ret tt).

End RegistryClient.

(** ** server.ts *)

(** The optional third argument of [addAPI]. *)
Record PartialAPIConfig : Type := {
  pc_price : option float;
  pc_timeout : option float;
  pc_rateLimit : option float
}.

(** [payment.amount < apiConfig.price]: an [undefined] amount converts to
    [NaN], which compares false. *)
Definition amount_lt (a : option float) (p : float) : bool :=
  match a with
  | Some x => (x <? p)%float
  | None => false
  end.

(** [apiConfig.timeout || 30000] *)
Definition effective_timeout (c : APIConfig) : float :=
  match timeout c with
  | Some t => if truthy (JNumber t) then t else 30000%float
  | None => 30000%float
  end.

Definition TIMEOUT_MAX : float := 2147483647%float.

(** [Math.trunc] on a delay between 1 and [TIMEOUT_MAX]. *)
Definition trunc_delay (ms : float) : float :=
  let r := (ms + 4503599627370496 - 4503599627370496)%float in
  if (ms <? r)%float then (r - 1)%float else r.

(** The delay Node arms for [setTimeout(callback, ms)]: a delay below 1,
    above [TIMEOUT_MAX] or not a number is set to 1, and a delay that is not
    an integer is truncated. *)
Definition timer_delay (ms : float) : float :=
  if (1 <=? ms)%float && (ms <=? TIMEOUT_MAX)%float then trunc_delay ms else 1%float.

(** [await Promise.race([handler(params), <timer rejecting after timeout>])]:
    the handler's promise decides the race when it settles within the delay
    armed for the timer, the timer otherwise. *)
Definition race (api : string) (h : APIHandler) (params : JsVal) (timeout_ms : float)
    : Task Resolved :=
  emit (EvHandlerCall api params) ;;;
  emit (EvSetTimeout timeout_ms) ;;;
  match h params with
  | Resolves data after =>
      if (after <=? timer_delay timeout_ms)%float then ret (Serialisable data)
      else throw (ErrorObj "Error" "Handler timeout")
  | Rejects e after =>
      if (after <=? timer_delay timeout_ms)%float then throw e
      else throw (ErrorObj "Error" "Handler timeout")
  | NeverSettles => throw (ErrorObj "Error" "Handler timeout")
  | ResolvesUnserialisable e after =>
      if (after <=? timer_delay timeout_ms)%float then ret (Unserialisable e)
      else throw (ErrorObj "Error" "Handler timeout")
  end.

(** The five assignments under "Update stats". *)
Definition record_success (apiPrice latency : float) (s : Node) : Node :=
  let served := (requestsServed (stats s) + 1)%float in
  let earnings := (totalEarnings (stats s) + apiPrice)%float in
  let total := (totalLatency s + latency)%float in
  set_stats {| uptime := uptime (stats s);
               requestsServed := served;
               totalEarnings := earnings;
               averageLatency := (total / served)%float;
               errorRate := (errorCount s / served)%float |}
            (set_totalLatency total s).

Section Server.

Variable P : Platform.
Variable cfg : Config.

Definition registryClient_heartbeat : Env -> Health -> Task unit :=
  heartbeat (registry cfg) (walletPublicKey cfg).

(** [addAPI(name, handler, config)] *)
Definition addAPI (name : string) (h : APIHandler) (c : option PartialAPIConfig)
    : Task unit :=
  let apiConfig :=
    {| price := match c with
                | Some pc => or_default (pc_price pc) (defaultPrice cfg)
                | None => defaultPrice cfg
                end;
       timeout := match c with Some pc => pc_timeout pc | None => None end;
       rateLimit := match c with Some pc => pc_rateLimit pc | None => None end |} in
  modify (fun s =>
    set_handlers (map_set name {| handler := h; config := apiConfig |} (handlers s)) s).

(** [app.get('/health', ...)] *)
Definition get_health (now : float) : Task unit :=
  s <- get ;;
  respond 200
    (JObject [("status", JString "ok");
              ("apis", JArray (map JString (map_keys (handlers s))));
              ("wallet", JString (walletPublicKey cfg));
              ("chains", jchains (chains cfg));
              ("stats", JObject
                 [("uptime", JNumber (now - startTime cfg)%float);
                  ("requestsServed", JNumber (requestsServed (stats s)));
                  ("totalEarnings", JNumber (totalEarnings (stats s)))])]).

(** [app.post('/call', ...)] *)
Definition post_call (env : Env) (req : Request) : Task unit :=
  let requestId := requestId env in
  let startTime := clock_start env in
  try_catch
    (if nullish (body req)
     then throw (TypeError ("Cannot destructure property 'api' of 'req.body' as it is "
                            ++ nullish_name (body req) ++ "."))
     else
       let api := prop (body req) "api" in
       let params := prop (body req) "params" in
       if negb (truthy api) || negb (typeof_string api)
       then respond 400 (JObject [("error", JString "Missing or invalid API name")])
       else if negb (truthy params) || negb (typeof_object params)
       then respond 400 (JObject [("error", JString "Missing or invalid params")])
       else
           let name := string_of api in
           s <- get ;;
           match assoc name (handlers s) with
           | None =>
               incr_errorCount ;;;
               throw (APINotFoundError name)
           | Some handlerConfig =>
             let apiConfig := config handlerConfig in
             match payment req with
             | None => throw (TypeError "Cannot read properties of undefined (reading 'amount')")
             | Some payment =>
               if amount_lt (amount payment) (price apiConfig)
               then respond 402 (JObject [("error", JString "Insufficient payment");
                                          ("required", JNumber (price apiConfig));
                                          ("received", jnum_opt (amount payment))])
               else
                 result <- race name (handler handlerConfig) params
                             (effective_timeout apiConfig) ;;
                 let latency := (clock_end env - startTime)%float in
                 modify (record_success (price apiConfig) latency) ;;;
                 s' <- get ;;
                 registryClient_heartbeat env
                   {| h_latency := latency;
                      h_requestsServed := requestsServed (stats s');
                      h_errors := errorCount s' |} ;;;
                 match result with
                 | Serialisable data =>
                     respond 200 (JObject [("data", data);
                                           ("requestId", JString requestId);
                                           ("latency", JNumber latency);
                                           ("cost", JNumber (price apiConfig));
                                           ("timestamp", JString (iso_response env))])
                 | Unserialisable e => throw e
                 end
             end
           end)
    (fun error =>
       incr_errorCount ;;;
       let latency := (clock_end env - startTime)%float in
       respond 500 (JObject [("error", JString (message_or "Internal server error" error));
                             ("requestId", JString requestId);
                             ("latency", JNumber latency)])).

(** A request that the router dispatches to [POST /call]: the payment
    middleware runs first, and the route handler runs if it calls [next()]. *)
Definition serve_call (env : Env) (req : Request) : Task unit :=
  r <- paymentMiddleware P (walletPublicKey cfg) (chains cfg) (rpc env) req ;;
  match r with
  | Some req' => post_call env req'
  | None => ret tt
  end.

(** [publicUrl || `http://localhost:${port}`] *)
Definition advertised_url : string :=
  match publicUrl cfg with
  | Some u => if String.eqb u "" then "http://localhost:" ++ ToString P (JNumber (port cfg)) else u
  | None => "http://localhost:" ++ ToString P (JNumber (port cfg))
  end.

(** The argument [start()] passes to [registryClient.register]. *)
Definition registration_data (s : Node) : Registration :=
  {| r_apis := map_keys (handlers s);
     r_url := advertised_url;
     r_prices := fromEntries
                   (map (fun kv => (fst kv, price (config (snd kv)))) (handlers s));
     r_chains := chains cfg |}.

(** [start()]: a normal completion is the promise resolved with the server,
    an abrupt one the promise rejected; the promise is resolved by the
    callback of [app.listen], and [server] is assigned when [app.listen]
    returns. *)
Definition start (env : Env) : Task float :=
  try_catch
    (s <- get ;;
     register P (registry cfg) (walletPublicKey cfg) env (registration_data s) ;;;
     match listen env (port cfg) with
     | Listening =>
         modify (set_server (Some (port cfg))) ;;;
         emit (EvListen (port cfg)) ;;;
         ret (port cfg)
     | ListenThrows e => throw e
     | NeverListening =>
         modify (set_server (Some (port cfg))) ;;;
         await Pending
     end)
    (fun error =>
       throw (ProviderNodeError ("Failed to start server: "
                                 ++ message_or "Unknown error" error))).

(** [stop()] *)
Definition stop (env : Env) : Task unit :=
  s <- get ;;
  match server s with
  | Some _ =>
      unregister (registry cfg) (walletPublicKey cfg) env ;;;
      emit EvClose
  | None => ret tt
  end.

(** [getStats()] *)
Definition getStats (now : float) (s : Node) : ServerStats :=
  {| uptime := (now - startTime cfg)%float;
     requestsServed := requestsServed (stats s);
     totalEarnings := totalEarnings (stats s);
     averageLatency := averageLatency (stats s);
     errorRate := errorRate (stats s) |}.

End Server.

(** ** Concrete worlds

    A platform instance, a chain, registries and requests on which the
    definitions above are run. *)

Module Fixture.

Fixpoint digits_value (s : string) (acc : Z) : option Z :=
  match s with
  | EmptyString => Some acc
  | String c rest =>
      let n := Z.of_nat (Ascii.nat_of_ascii c) in
      if ((48 <=? n) && (n <=? 57))%Z
      then digits_value rest (acc * 10 + (n - 48))%Z
      else None
  end.

(** [Number(s)] on the strings of decimal digits that the ledger uses for
    token amounts (and on the empty string); other strings are not numbers
    here. *)
Definition decimal_number (s : string) : float :=
  match s with
  | EmptyString => 0%float
  | _ =>
      match digits_value s 0%Z with
      | Some z => PrimFloat.of_uint63 (Uint63.of_Z z)
      | None => nan
      end
  end.

Definition plat : Platform :=
  {| StringToNumber := decimal_number;
     ToString := string_of;
     PublicKey := fun v =>
       match v with
       | JString s => if String.eqb s "" then None else Some s
       | _ => None
       end |}.

Definition cfg0 : Config :=
  closure_of {| cfg_port := None; cfg_publicUrl := Some "https://node.example";
                cfg_registry := None; cfg_chains := None;
                cfg_defaultPrice := None |}
             "NodeWallet" 1000%float.

Definition transfer_to (destination amount : string) : Instruction :=
  ParsedInstruction TOKEN_PROGRAM_ID
    (JObject [("type", JString "transfer");
              ("info", JObject [("amount", JString amount);
                                ("authority", JString "PayerWallet");
                                ("destination", JString destination);
                                ("source", JString "PayerTokenAccount")])]).

Definition token_account (owner : string) : JsVal :=
  JObject [("context", JObject [("slot", JNumber 7)]);
           ("value", JObject
              [("data", JObject
                  [("parsed", JObject
                      [("info", JObject [("mint", JString "EPjFWdd5AufqSSqeM2qN1xzybapC8G4wEGGkZwyTDt1v");
                                         ("owner", JString owner)]);
                       ("type", JString "account")]);
                   ("program", JString "spl-token")]);
               ("owner", JString TOKEN_PROGRAM_ID)])].

(** One transfer of 2.5 USDC to the node. *)
Definition tx_paid : ParsedTx :=
  {| meta := Some {| err := JNull |};
     instructions := [PartiallyDecodedInstruction "ComputeBudget111111111111111111111111111111";
                      transfer_to "NodeTokenAccount" "2500000"] |}.

(** A transfer to a third party followed by a transfer of 2.5 USDC to the
    node. *)
Definition tx_two_transfers : ParsedTx :=
  {| meta := Some {| err := JNull |};
     instructions := [transfer_to "OtherTokenAccount" "100";
                      transfer_to "NodeTokenAccount" "2500000"] |}.

(** A transaction that only carries a memo. *)
Definition tx_memo : ParsedTx :=
  {| meta := None;
     instructions := [ParsedInstruction "MemoSq4gqABAXKb96qnH8TysNcWxMyWCqXgDLGmfcHr"
                        (JString "hello")] |}.

Definition chain0 : Connection :=
  {| getParsedTransaction := fun sig =>
       if String.eqb sig "sig-paid" then Fulfilled (Some tx_paid)
       else if String.eqb sig "sig-two" then Fulfilled (Some tx_two_transfers)
       else if String.eqb sig "sig-memo" then Fulfilled (Some tx_memo)
       else Fulfilled None;
     getParsedAccountInfo := fun address =>
       if String.eqb address "NodeTokenAccount" then Fulfilled (token_account "NodeWallet")
       else if String.eqb address "OtherTokenAccount" then Fulfilled (token_account "OtherWallet")
       else Fulfilled (JObject [("value", JNull)]) |}.

Definition world (registry_answer : Settled HttpResponse) : Env :=
  {| fetch := fun _ _ => registry_answer;
     listen := fun _ => Listening;
     rpc := chain0;
     requestId := "0f1e2d3c4b5a69788796a5b4c3d2e1f0";
     clock_start := 2000;
     clock_end := 2040;
     iso_heartbeat := "2025-01-01T00:00:02.040Z";
     iso_response := "2025-01-01T00:00:02.041Z" |}.

Definition env_ok : Env := world (Fulfilled {| ok := true; text := Fulfilled "{}" |}).
Definition env_refused : Env := world (Fulfilled {| ok := false; text := Fulfilled "denied" |}).
Definition env_down : Env := world (Rejected (ErrorObj "FetchError" "connect ECONNREFUSED")).
Definition env_hang : Env := world Pending.

Definition echo : APIHandler := fun params => Resolves params 5%float.
Definition boom : APIHandler := fun _ => Rejects (ErrorObj "Error" "boom") 5%float.

Definition priced (p : float) : option PartialAPIConfig :=
  Some {| pc_price := Some p; pc_timeout := None; pc_rateLimit := None |}.

(** A node offering a free [echo], a free failing [boom] and a [paid] echo
    at 0.5 USDC. *)
Definition node0 : Node :=
  state_of (addAPI cfg0 "paid" echo (priced 0.5%float)
    (state_of (addAPI cfg0 "boom" boom None
      (state_of (addAPI cfg0 "echo" echo None initial_node))))).

Definition call (token : option string) (api : JsVal) (params : JsVal) : Request :=
  {| method := "POST"; path := "/call"; x_payment := token;
     x_payment_chain := None;
     body := JObject [("api", api); ("params", params)];
     payment := None |}.

Definition free_call (api : string) : Request :=
  call (Some "free-api-call") (JString api) (JObject [("q", JString "hi")]).

End Fixture.

(** * Vocabulary of the statements *)

(** The instruction the verifier examines: the first parsed token-program
    instruction of type [transfer] or [transferChecked]. *)
Definition selected_transfer (tx : ParsedTx) : option Instruction :=
  find is_transfer (filter is_token_instruction (instructions tx)).

(** The destination named by [info] is a token account that the chain
    resolves to the owner [owner]. *)
Record Resolution (P : Platform) (conn : Connection) (info : JsVal)
    (owner : string) : Prop := {
  res_info : nullish info = false;
  res_account : exists address acct,
      PublicKey P (prop info "destination") = Some address /\
      getParsedAccountInfo conn address = Fulfilled acct /\
      nullish acct = false /\
      truthy (account_data (prop acct "value")) = true /\
      destination_owner (account_data (prop acct "value")) = JString owner;
  res_owner : owner <> ""
}.

(** The account lookup the verifier makes for the destination named by
    [info]. *)
Definition account_query (P : Platform) (info : JsVal) : list Event :=
  match PublicKey P (prop info "destination") with
  | Some address => [EvGetParsedAccountInfo address]
  | None => []
  end.

(** The proof token is absent, empty or the free-call placeholder. *)
Definition free_proof (token : option string) : Prop :=
  token = None \/ token = Some "" \/ token = Some "free-api-call".

(** The body names the API [name] and carries the object-shaped payload
    [params]: the call passes the shape validation of [POST /call]. *)
Definition valid_shape (req : Request) (name : string) (params : JsVal) : Prop :=
  prop (body req) "api" = JString name /\ name <> "" /\
  prop (body req) "params" = params /\
  truthy params = true /\ typeof_object params = true.


(** The 500 response of [POST /call]. *)
Definition failure_response (env : Env) (message : string) : Event :=
  EvRespond 500
    (JObject [("error", JString message);
              ("requestId", JString (requestId env));
              ("latency", JNumber (clock_end env - clock_start env)%float)]).

(** The state in which a call leaves the node. *)
Definition after_call (P : Platform) (cfg : Config) (env : Env) (req : Request)
    (s : Node) : Node :=
  state_of (serve_call P cfg env req s).

(** The heartbeat request of a successful call, built from the state [s']
    left by the stats update. *)
Definition call_heartbeat (cfg : Config) (env : Env) (s' : Node) : Event :=
  EvFetch (registry cfg ++ "/heartbeat")
    (heartbeat_payload (walletPublicKey cfg)
       {| h_latency := (clock_end env - clock_start env)%float;
          h_requestsServed := requestsServed (stats s');
          h_errors := errorCount s' |}
       (iso_heartbeat env)).

(** The 200 response of [POST /call]. *)
Definition success_response (env : Env) (data : JsVal) (cost : float) : Event :=
  EvRespond 200
    (JObject [("data", data);
              ("requestId", JString (requestId env));
              ("latency", JNumber (clock_end env - clock_start env)%float);
              ("cost", JNumber cost);
              ("timestamp", JString (iso_response env))]).

(** The event is a response sent to the caller. *)
Definition is_response (e : Event) : bool :=
  match e with EvRespond _ _ => true | _ => false end.

(** The registration request [start()] sends from state [s]. *)
Definition register_request (P : Platform) (cfg : Config) (s : Node) : Event :=
  EvFetch (registry cfg ++ "/register")
    (register_payload (walletPublicKey cfg) (registration_data P cfg s)).

(** The node once its registration has succeeded: a new heartbeat timer is
    armed and recorded in [heartbeatInterval]. *)
Definition registered (s : Node) : Node :=
  set_timer_state (Some (next_timer s)) (timers s ++ [next_timer s])%list
    (S (next_timer s)) s.

(** The node once [start()] has succeeded: the heartbeat timer is armed and
    the HTTP server exists. *)
Definition started (cfg : Config) (s : Node) : Node :=
  set_server (Some (port cfg))
    (set_timer_state (Some (next_timer s)) (timers s ++ [next_timer s])%list
       (S (next_timer s)) s).

(** The snapshot with every figure at zero. *)
Definition zero_health : Health :=
  {| h_latency := 0; h_requestsServed := 0; h_errors := 0 |}.

(** * Vocabulary of the further properties *)

(** What a result of the verifier looks like: a valid one carries an amount
    that is a number and not negative, the signature and no error; an
    invalid one carries an error and no amount. *)
Definition well_formed_result (sig : string) (v : VerifyResult) : Prop :=
  if valid v
  then exists a, v_amount v = Some a /\ (a <? 0)%float = false
                 /\ PrimFloat.is_nan a = false
                 /\ v_signature v = Some sig /\ v_error v = None
  else v_amount v = None /\ exists msg, v_error v = Some msg.

(** The ways a run of the verifier from state [s] can end: with a
    well-formed result after at most one transaction query and one account
    query, or waiting for one of these two queries, which never settles. *)
Inductive VerifyOutcome (sig : string) (conn : option Connection) (s : Node)
    : Completion VerifyResult * Node * list Event -> Prop :=
| VerReturned (v : VerifyResult) (queries : list Event) :
    well_formed_result sig v ->
    (queries = []
     \/ queries = [EvGetParsedTransaction sig]
     \/ exists address,
          queries = [EvGetParsedTransaction sig; EvGetParsedAccountInfo address]) ->
    VerifyOutcome sig conn s (Normal v, s, queries)
| VerWaitingTransaction (c : Connection) :
    conn = Some c ->
    getParsedTransaction c sig = Pending ->
    VerifyOutcome sig conn s (Stuck, s, [EvGetParsedTransaction sig])
| VerWaitingAccount (c : Connection) (address : string) :
    conn = Some c ->
    getParsedAccountInfo c address = Pending ->
    VerifyOutcome sig conn s
      (Stuck, s, [EvGetParsedTransaction sig; EvGetParsedAccountInfo address]).

(** The event is a query sent to the chain. *)
Definition is_chain_query (e : Event) : bool :=
  match e with
  | EvGetParsedTransaction _ | EvGetParsedAccountInfo _ => true
  | _ => false
  end.

(** The event is the invocation of a handler. *)
Definition is_handler_call (e : Event) : bool :=
  match e with EvHandlerCall _ _ => true | _ => false end.

(** The ways a run of [POST /call] from state [s] can end: a 400 or a 402
    with the state untouched; a 500 with [errorCount] raised by one or by
    two; a 200 after the stats update; a 500 after the stats update, with
    [errorCount] raised by one, when the handler's result cannot be
    serialised; or no response at all, after the stats update, when the
    heartbeat request never settles. *)
Inductive CallOutcome (env : Env) (s : Node)
    : Completion unit * Node * list Event -> Prop :=
| OutBadRequest (payload : JsVal) :
    CallOutcome env s (Normal tt, s, [EvRespond 400 payload])
| OutInsufficient (payload : JsVal) :
    CallOutcome env s (Normal tt, s, [EvRespond 402 payload])
| OutFailure (message : string) (pre : list Event) (n : float) :
    existsb is_response pre = false ->
    n = (errorCount s + 1)%float \/ n = (errorCount s + 1 + 1)%float ->
    CallOutcome env s
      (Normal tt, set_errorCount n s, (pre ++ [failure_response env message])%list)
| OutSuccess (cost : float) (data : JsVal) (pre : list Event) :
    existsb is_response pre = false ->
    CallOutcome env s
      (Normal tt,
       record_success cost (clock_end env - clock_start env)%float s,
       (pre ++ [success_response env data cost])%list)
| OutHung (cost : float) (pre : list Event) :
    existsb is_response pre = false ->
    CallOutcome env s
      (Stuck, record_success cost (clock_end env - clock_start env)%float s, pre)
| OutUnsent (cost : float) (message : string) (pre : list Event) :
    existsb is_response pre = false ->
    CallOutcome env s
      (Normal tt,
       set_errorCount (errorCount s + 1)%float
         (record_success cost (clock_end env - clock_start env)%float s),
       (pre ++ [failure_response env message])%list).

(** The stored average is the quotient of the cumulative latency by the
    number of requests served. *)
Definition average_consistent (s : Node) : Prop :=
  averageLatency (stats s) = (totalLatency s / requestsServed (stats s))%float.

(** The error of the race between a handler run and the timer, if the race
    is lost or the handler fails. *)
Definition race_error (run : HandlerRun) (timeout_ms : float) : option Thrown :=
  match run with
  | Resolves _ after | ResolvesUnserialisable _ after =>
      if (after <=? timer_delay timeout_ms)%float then None
      else Some (ErrorObj "Error" "Handler timeout")
  | Rejects e after =>
      if (after <=? timer_delay timeout_ms)%float then Some e
      else Some (ErrorObj "Error" "Handler timeout")
  | NeverSettles => Some (ErrorObj "Error" "Handler timeout")
  end.

(** The registration [addAPI(name, handler, config)] stores. *)
Definition registration_of (cfg : Config) (h : APIHandler)
    (c : option PartialAPIConfig) : HandlerReg :=
  {| handler := h;
     config :=
       {| price := match c with
                   | Some pc => or_default (pc_price pc) (defaultPrice cfg)
                   | None => defaultPrice cfg
                   end;
          timeout := match c with Some pc => pc_timeout pc | None => None end;
          rateLimit := match c with Some pc => pc_rateLimit pc | None => None end |} |}.

(** The registry answers every request with a success status. *)
Definition registry_accepts (env : Env) : Prop :=
  forall url payload, exists r, fetch env url payload = Fulfilled r /\ ok r = true.

(** The interval timer [id] is armed. *)
Definition armed (id : nat) (s : Node) : bool := existsb (Nat.eqb id) (timers s).

(** The unregister request. *)
Definition unregister_request (registryUrl providerId : string) : Event :=
  EvFetch (registryUrl ++ "/unregister") (JObject [("providerId", JString providerId)]).

(** The token is a payment proof to verify: present, not empty and not the
    free-call placeholder. *)
Definition proof_to_verify (req : Request) (token : string) : Prop :=
  x_payment req = Some token /\ token <> "" /\ token <> "free-api-call".

(** The 402 response of the gate for a payment the verifier rejects. *)
Definition invalid_payment_response (v : VerifyResult) : Event :=
  EvRespond 402 (JObject [("error", JString "Invalid payment");
                          ("message", jstr_opt (v_error v))]).

(** The ways a run of the gate on [req] from state [s] can end. *)
Inductive GateOutcome (req : Request) (s : Node)
    : Completion (option Request) * Node * list Event -> Prop :=
| GateBypass :
    path req = "/health" ->
    GateOutcome req s (Normal (Some req), s, [])
| GateFree :
    GateOutcome req s (Normal (Some (with_payment req (free_payment req))), s, [])
| GateUnsupported (payload : JsVal) :
    GateOutcome req s (Normal None, s, [EvRespond 400 payload])
| GateRejected (queries : list Event) (v : VerifyResult) :
    forallb is_chain_query queries = true ->
    valid v = false ->
    GateOutcome req s (Normal None, s, (queries ++ [invalid_payment_response v])%list)
| GateVerified (queries : list Event) (token : string) (v : VerifyResult) (a : float) :
    forallb is_chain_query queries = true ->
    x_payment req = Some token ->
    v_amount v = Some a ->
    (a <? 0)%float = false ->
    PrimFloat.is_nan a = false ->
    GateOutcome req s
      (Normal (Some (with_payment req
                       {| amount := v_amount v; from := v_from v;
                          signature := Some token;
                          chain := requested_chain req |})),
       s, queries)
| GateWaiting (queries : list Event) :
    forallb is_chain_query queries = true ->
    GateOutcome req s (Stuck, s, queries).

(** * Properties *)

Ltac task_unfold :=
  repeat (progress (unfold bind, ret, throw, try_catch, emit, get, modify, respond,
                      await, getp, incr_errorCount, spawn; cbv beta iota)).

Ltac step H := rewrite H; task_unfold.

(** ** Comparison of binary64 numbers *)



(** ** On-chain verification *)

(** C1, as stated, fails: the transaction below contains a token transfer of
    2500000 raw units whose destination account is owned by the node's
    wallet, and the verifier still answers [valid = false] with the
    recipient-mismatch error, because it only examines the first transfer
    instruction, which pays a third party. *)
Lemma verify_two_transfers_rejected :
  let ix := Fixture.transfer_to "NodeTokenAccount" "2500000" in
  let info := prop (ix_parsed ix) "info" in
  In ix (instructions Fixture.tx_two_transfers)
  /\ is_token_instruction ix = true
  /\ is_transfer ix = true
  /\ Resolution Fixture.plat Fixture.chain0 info "NodeWallet"
  /\ ToNumber Fixture.plat (raw_amount info) = 2500000%float
  /\ result_of (verifySolanaOnChainPayment Fixture.plat "sig-two" "NodeWallet"
                  (Some Fixture.chain0) initial_node)
     = Normal (invalid "Payment was sent to an incorrect account.").
Proof.
  cbv zeta. repeat split; try reflexivity.
  - right; left; reflexivity.
  - exists "NodeTokenAccount", (Fixture.token_account "NodeWallet").
    repeat split; reflexivity.
  - discriminate.
Qed.

(** C1 (amended): when the transaction is found and did not fail on-chain,
    the verifier decides on the first parsed token-program instruction of
    type transfer or transferChecked.  If there is none it returns
    [valid = false] with the no-transfer error.  If the destination of that
    instruction resolves to an owner different from the wallet it returns
    [valid = false] with the recipient-mismatch error.  If it resolves to
    the wallet and the raw amount, as a number [A], gives a quotient
    [A / 10^6] that is neither negative nor NaN, it returns [valid = true]
    with [amountPaid = A / 10^6]. *)
Theorem verify_selected_transfer (P : Platform) (wallet : string) (conn : Connection)
    (sig : string) (tx : ParsedTx) (s : Node) :
  sig <> "" ->
  getParsedTransaction conn sig = Fulfilled (Some tx) ->
  tx_failed tx = false ->
  (selected_transfer tx = None ->
     verifySolanaOnChainPayment P sig wallet (Some conn) s
     = (Normal (invalid "No valid SPL Token transfer instruction found."), s,
        [EvGetParsedTransaction sig]))
  /\
  (forall ix owner,
     selected_transfer tx = Some ix ->
     Resolution P conn (prop (ix_parsed ix) "info") owner ->
     let info := prop (ix_parsed ix) "info" in
     let events := EvGetParsedTransaction sig :: account_query P info in
     (owner <> wallet ->
        verifySolanaOnChainPayment P sig wallet (Some conn) s
        = (Normal (invalid "Payment was sent to an incorrect account."), s, events))
     /\
     (owner = wallet ->
      forall A : float,
        ToNumber P (raw_amount info) = A ->
        (A / 1000000 <? 0)%float = false ->
        PrimFloat.is_nan (A / 1000000)%float = false ->
        verifySolanaOnChainPayment P sig wallet (Some conn) s
        = (Normal {| valid := true; v_amount := Some (A / 1000000)%float;
                     v_from := prop info "authority";
                     v_signature := Some sig; v_error := None |}, s, events))).
Proof.
  intros Hsig Htx Hok. apply String.eqb_neq in Hsig.
  unfold selected_transfer, verifySolanaOnChainPayment. rewrite Hsig.
  split.
  - intros Hnone. task_unfold. step Htx. rewrite Hok, Hnone. reflexivity.
  - intros ix owner Hsome [Hinfo (address & acct & Hpk & Hacct & Hnn & Hdata & Howner) Hne].
    cbv zeta. unfold account_query. rewrite Hpk.
    apply String.eqb_neq in Hne.
    split.
    + intros Hw. apply String.eqb_neq in Hw.
      task_unfold. step Htx. step Hok. step Hsome. step Hinfo. step Hpk.
      step Hacct. step Hnn. step Hdata. step Howner.
      cbn [truthy strict_eq_string negb]. rewrite Hne, Hw. reflexivity.
    + intros Hw A HA Hneg Hnan. subst owner.
      task_unfold. step Htx. step Hok. step Hsome. step Hinfo. step Hpk.
      step Hacct. step Hnn. step Hdata. step Howner.
      cbn [truthy strict_eq_string negb]. rewrite Hne, String.eqb_refl, HA, Hneg, Hnan.
      reflexivity.
Qed.

Lemma verify_selected_transfer_witness :
  (* no transfer instruction *)
  verifySolanaOnChainPayment Fixture.plat "sig-memo" "NodeWallet"
    (Some Fixture.chain0) initial_node
  = (Normal (invalid "No valid SPL Token transfer instruction found."),
     initial_node, [EvGetParsedTransaction "sig-memo"])
  (* the transfer pays another owner *)
  /\ verifySolanaOnChainPayment Fixture.plat "sig-paid" "SomeoneElse"
       (Some Fixture.chain0) initial_node
     = (Normal (invalid "Payment was sent to an incorrect account."),
        initial_node,
        [EvGetParsedTransaction "sig-paid"; EvGetParsedAccountInfo "NodeTokenAccount"])
  (* the transfer pays the node: 2500000 raw units are 2.5 USDC *)
  /\ verifySolanaOnChainPayment Fixture.plat "sig-paid" "NodeWallet"
       (Some Fixture.chain0) initial_node
     = (Normal {| valid := true; v_amount := Some 2.5%float;
                  v_from := JString "PayerWallet";
                  v_signature := Some "sig-paid"; v_error := None |},
        initial_node,
        [EvGetParsedTransaction "sig-paid"; EvGetParsedAccountInfo "NodeTokenAccount"]).
Proof.
  assert (Hres : Resolution Fixture.plat Fixture.chain0
            (prop (ix_parsed (Fixture.transfer_to "NodeTokenAccount" "2500000")) "info")
            "NodeWallet").
  { constructor.
    - reflexivity.
    - exists "NodeTokenAccount", (Fixture.token_account "NodeWallet").
      repeat split; reflexivity.
    - discriminate. }
  assert (Hsig : forall sig, String.eqb sig "" = false -> sig <> "").
  { intros sig H. apply String.eqb_neq. exact H. }
  split; [ | split ].
  - exact (proj1 (verify_selected_transfer Fixture.plat "NodeWallet" Fixture.chain0
                    "sig-memo" Fixture.tx_memo initial_node
                    (Hsig "sig-memo" eq_refl) eq_refl eq_refl) eq_refl).
  - exact (proj1 (proj2 (verify_selected_transfer Fixture.plat "SomeoneElse"
                           Fixture.chain0 "sig-paid" Fixture.tx_paid initial_node
                           (Hsig "sig-paid" eq_refl) eq_refl eq_refl)
                    (Fixture.transfer_to "NodeTokenAccount" "2500000") "NodeWallet"
                    eq_refl Hres)
             ltac:(discriminate)).
  - exact (proj2 (proj2 (verify_selected_transfer Fixture.plat "NodeWallet"
                           Fixture.chain0 "sig-paid" Fixture.tx_paid initial_node
                           (Hsig "sig-paid" eq_refl) eq_refl eq_refl)
                    (Fixture.transfer_to "NodeTokenAccount" "2500000") "NodeWallet"
                    eq_refl Hres)
             eq_refl 2500000%float eq_refl eq_refl eq_refl).
Defined.

(** ** The payment gate *)

(** C2: on a call that passes the payment gate (any path but the health
    check, which bypasses the gate) and presents no proof token, an empty one
    or "free-api-call", the middleware calls [next()] with a request whose
    [payment] member is the claim [amount = 0], [from = "unknown"] and which
    is otherwise as received; its trace is empty, so no chain query and no
    response is made.  This holds for every chain header, every list of
    supported chains, every wallet and every chain state. *)
Theorem free_call_skips_verification (P : Platform) (wallet : string)
    (supported : list string) (conn : Connection) (req : Request) (s : Node) :
  path req <> "/health" ->
  free_proof (x_payment req) ->
  paymentMiddleware P wallet supported conn req s
  = (Normal (Some (with_payment req (free_payment req))), s, [])
  /\ payment (with_payment req (free_payment req)) = Some (free_payment req)
  /\ body (with_payment req (free_payment req)) = body req
  /\ amount (free_payment req) = Some 0%float
  /\ from (free_payment req) = JString "unknown".
Proof.
  intros Hpath Hfree. split; [ | repeat split; reflexivity ].
  unfold paymentMiddleware.
  apply String.eqb_neq in Hpath. rewrite Hpath.
  destruct Hfree as [H | [H | H]]; rewrite H; reflexivity.
Qed.

Lemma free_call_skips_verification_witness :
  let req := {| method := "POST"; path := "/call";
                x_payment := Some "free-api-call";
                x_payment_chain := Some "dogecoin";
                body := JObject [("api", JString "echo"); ("params", JObject [])];
                payment := None |} in
  paymentMiddleware Fixture.plat "NodeWallet" ["solana"] Fixture.chain0 req initial_node
  = (Normal (Some (with_payment req (free_payment req))), initial_node, [])
  /\ payment (with_payment req (free_payment req)) = Some (free_payment req)
  /\ body (with_payment req (free_payment req)) = body req
  /\ amount (free_payment req) = Some 0%float
  /\ from (free_payment req) = JString "unknown".
Proof.
  cbv zeta.
  apply (free_call_skips_verification Fixture.plat "NodeWallet" ["solana"] Fixture.chain0).
  - simpl. discriminate.
  - right; right; reflexivity.
Defined.

(** ** The call pipeline *)

Lemma shape_body_not_nullish (req : Request) (name : string) (params : JsVal) :
  valid_shape req name params -> nullish (body req) = false.
Proof.
  intros [H _]. destruct (body req); simpl in *; try reflexivity; discriminate.
Qed.

(** A call that passes the shape validation reaches the handler lookup. *)
Ltac enter_call Hshape :=
  let Hbody := fresh "Hbody" in
  let Hapi := fresh "Hapi" in
  let Hname := fresh "Hname" in
  let Hparams := fresh "Hparams" in
  let Htruthy := fresh "Htruthy" in
  let Hobj := fresh "Hobj" in
  pose proof (shape_body_not_nullish _ _ _ Hshape) as Hbody;
  destruct Hshape as (Hapi & Hname & Hparams & Htruthy & Hobj);
  apply String.eqb_neq in Hname;
  unfold post_call; task_unfold;
  rewrite Hbody, Hapi, Hparams;
  cbn [truthy typeof_string string_of negb orb];
  rewrite Hname, Htruthy, Hobj;
  cbn [negb orb].



(** C4: a call that names an API without registration ends with the 500
    response "API not found", and [errorCount] has been incremented twice:
    once at the lookup and once more in the catch block that the thrown
    error reaches. *)
Theorem unknown_api_counted_twice (cfg : Config) (env : Env) (req : Request)
    (s : Node) (name : string) (params : JsVal) :
  valid_shape req name params ->
  assoc name (handlers s) = None ->
  post_call cfg env req s
  = (Normal tt,
     set_errorCount (errorCount s + 1 + 1)%float s,
     [failure_response env ("API not found: " ++ name)]).
Proof.
  intros Hshape Hreg.
  enter_call Hshape.
  rewrite Hreg. reflexivity.
Qed.

Lemma unknown_api_counted_twice_witness :
  post_call Fixture.cfg0 Fixture.env_ok
    (with_payment (Fixture.free_call "missing")
       (free_payment (Fixture.free_call "missing")))
    Fixture.node0
  = (Normal tt,
     set_errorCount 2%float Fixture.node0,
     [failure_response Fixture.env_ok "API not found: missing"])
  /\ errorCount Fixture.node0 = 0%float.
Proof.
  split; [ | reflexivity ].
  apply (unknown_api_counted_twice Fixture.cfg0 Fixture.env_ok _ Fixture.node0
           "missing" (JObject [("q", JString "hi")])).
  - repeat split; try reflexivity. discriminate.
  - reflexivity.
Defined.

(** The success path keeps both derived fields equal to the quotients of
    their defining counters. *)
Lemma record_success_consistent (apiPrice latency : float) (s : Node) :
  let s' := record_success apiPrice latency s in
  averageLatency (stats s') = (totalLatency s' / requestsServed (stats s'))%float
  /\ errorRate (stats s') = (errorCount s' / requestsServed (stats s'))%float.
Proof. split; reflexivity. Qed.

(** C6: one successful call followed by one call whose handler fails.  After
    the failure [errorCount] is 1 and [requestsServed] is 1, so the defining
    quotient is 1, while the stored [errorRate] is still the 0 computed by
    the successful call: the catch block increments [errorCount] and leaves
    [stats.errorRate] as it was. *)
Theorem error_rate_stale_after_failure :
  let s1 := after_call Fixture.plat Fixture.cfg0 Fixture.env_ok
              (Fixture.free_call "echo") Fixture.node0 in
  let s2 := after_call Fixture.plat Fixture.cfg0 Fixture.env_ok
              (Fixture.free_call "boom") s1 in
  trace_of (serve_call Fixture.plat Fixture.cfg0 Fixture.env_ok
              (Fixture.free_call "boom") s1)
  = [EvHandlerCall "boom" (JObject [("q", JString "hi")]);
     EvSetTimeout 30000;
     failure_response Fixture.env_ok "boom"]
  /\ requestsServed (stats s2) = 1%float
  /\ errorCount s2 = 1%float
  /\ (errorCount s2 / requestsServed (stats s2))%float = 1%float
  /\ errorRate (stats s2) = 0%float
  /\ stats s2 = stats s1.
Proof. cbv zeta. repeat split; vm_compute; reflexivity. Qed.

(** C7, as stated, fails: a call without an API name is answered 400 after
    the request identifier has been generated, and the response carries
    neither [requestId] nor [latency]. *)
Lemma bad_request_lacks_request_id :
  exists payload,
    post_call Fixture.cfg0 Fixture.env_ok
      (Fixture.call (Some "free-api-call") JUndefined (JObject []))
      Fixture.node0
    = (Normal tt, Fixture.node0, [EvRespond 400 payload])
    /\ json_includes payload "requestId" = false
    /\ json_includes payload "latency" = false.
Proof. eexists. repeat split. Qed.

(** C7 (amended): every 500 response of [POST /call] (unknown API, handler
    failure, handler timeout or any other exception in the route handler)
    carries the call's [requestId] and its elapsed [latency]; the 400 and 402
    responses of the route handler carry neither. *)
Theorem failure_responses_identify_call (cfg : Config) (env : Env)
    (req : Request) (s : Node) (code : nat) (payload : JsVal) :
  In (EvRespond code payload) (trace_of (post_call cfg env req s)) ->
  (code = 500 ->
     prop payload "requestId" = JString (requestId env)
     /\ prop payload "latency" = JNumber (clock_end env - clock_start env)%float)
  /\
  (code = 400 \/ code = 402 ->
     json_includes payload "requestId" = false
     /\ json_includes payload "latency" = false).
Proof.
  unfold post_call, trace_of, race, registryClient_heartbeat, heartbeat, amount_lt.
  task_unfold.
  destruct (nullish (body req));
    [ cbn; intros [H | []]; inversion H; subst; split;
      [ intros _; split; reflexivity | intros [? | ?]; discriminate ] | ].
  destruct (negb (truthy (prop (body req) "api"))
            || negb (typeof_string (prop (body req) "api")));
    [ cbn; intros [H | []]; inversion H; subst; split;
      [ discriminate | intros _; split; reflexivity ] | ].
  destruct (negb (truthy (prop (body req) "params"))
            || negb (typeof_object (prop (body req) "params")));
    [ cbn; intros [H | []]; inversion H; subst; split;
      [ discriminate | intros _; split; reflexivity ] | ].
  destruct (assoc (string_of (prop (body req) "api")) (handlers s)) as [reg | ];
    [ | cbn; intros [H | []]; inversion H; subst; split;
        [ intros _; split; reflexivity | intros [? | ?]; discriminate ] ].
  destruct (payment req) as [pay | ];
    [ | cbn; intros [H | []]; inversion H; subst; split;
        [ intros _; split; reflexivity | intros [? | ?]; discriminate ] ].
  destruct (amount pay) as [a | ];
    [ destruct (a <? price (config reg))%float;
      [ cbn; intros [H | []]; inversion H; subst; split;
        [ discriminate | intros _; split; reflexivity ] | ] | ].
  all: destruct (handler reg (prop (body req) "params"))
         as [d after | e after | | e after];
    try destruct (after <=? timer_delay (effective_timeout (config reg)))%float;
    try destruct (fetch env _ _) as [r | e' | ];
    cbn -[effective_timeout record_success heartbeat_payload];
    intros H;
    repeat (destruct H as [H | H]; [ try discriminate H | ]);
    try contradiction;
    try (inversion H; subst; split;
         [ intros _; split; reflexivity | intros [? | ?]; discriminate ]);
    try (inversion H; subst; split; [ discriminate | intros [? | ?]; discriminate ]).
Qed.

Lemma failure_responses_identify_call_witness :
  prop (JObject [("error", JString "boom");
                 ("requestId", JString (requestId Fixture.env_ok));
                 ("latency", JNumber 40)]) "requestId"
  = JString (requestId Fixture.env_ok)
  /\ prop (JObject [("error", JString "boom");
                    ("requestId", JString (requestId Fixture.env_ok));
                    ("latency", JNumber 40)]) "latency"
     = JNumber (clock_end Fixture.env_ok - clock_start Fixture.env_ok)%float.
Proof.
  refine (proj1 (failure_responses_identify_call Fixture.cfg0 Fixture.env_ok
                   (with_payment (Fixture.free_call "boom")
                      (free_payment (Fixture.free_call "boom")))
                   Fixture.node0 500 _ _) eq_refl).
  vm_compute. right; right; left; reflexivity.
Defined.

(** C5, as stated, fails: the handler has resolved and the stats are
    updated, the heartbeat request is sent, the registry never answers it,
    and the call is left without any response. *)
Lemma pending_heartbeat_blocks_response :
  let r := serve_call Fixture.plat Fixture.cfg0 Fixture.env_hang
             (Fixture.free_call "echo") Fixture.node0 in
  result_of r = Stuck
  /\ requestsServed (stats (state_of r)) = 1%float
  /\ trace_of r
     = [EvHandlerCall "echo" (JObject [("q", JString "hi")]);
        EvSetTimeout 30000;
        call_heartbeat Fixture.cfg0 Fixture.env_hang (state_of r)]
  /\ existsb is_response (trace_of r) = false.
Proof. cbv zeta. repeat split; vm_compute; reflexivity. Qed.

(** C5 (amended): on a successful call — the handler resolves, with a value
    that can be serialised, within the delay Node arms for the timeout — the
    stats are updated first and the heartbeat request is sent next, carrying
    the updated [requestsServed]; the handler then waits for that request to
    settle.  When the request is answered or fails, the 200 response follows
    and is the same in both cases; when it never settles, no response is
    sent. *)
Theorem heartbeat_between_stats_and_response (cfg : Config) (env : Env)
    (req : Request) (s : Node) (name : string) (params : JsVal)
    (reg : HandlerReg) (pay : Payment) (data : JsVal) (after : float) :
  valid_shape req name params ->
  assoc name (handlers s) = Some reg ->
  payment req = Some pay ->
  amount_lt (amount pay) (price (config reg)) = false ->
  handler reg params = Resolves data after ->
  (after <=? timer_delay (effective_timeout (config reg)))%float = true ->
  let s' := record_success (price (config reg))
              (clock_end env - clock_start env)%float s in
  let sent := [EvHandlerCall name params;
               EvSetTimeout (effective_timeout (config reg));
               call_heartbeat cfg env s'] in
  requestsServed (stats s') = (requestsServed (stats s) + 1)%float
  /\ post_call cfg env req s
     = match fetch env (registry cfg ++ "/heartbeat")
               (heartbeat_payload (walletPublicKey cfg)
                  {| h_latency := (clock_end env - clock_start env)%float;
                     h_requestsServed := requestsServed (stats s');
                     h_errors := errorCount s' |}
                  (iso_heartbeat env)) with
       | Pending => (Stuck, s', sent)
       | _ => (Normal tt, s',
               (sent ++ [success_response env data (price (config reg))])%list)
       end.
Proof.
  intros Hshape Hreg Hpay Hprice Hrun Hin. cbv zeta.
  split; [ reflexivity | ].
  enter_call Hshape.
  rewrite Hreg, Hpay, Hprice.
  unfold race, registryClient_heartbeat, heartbeat, call_heartbeat, success_response.
  task_unfold. rewrite Hrun, Hin.
  destruct (fetch env _ _) as [r | e | ]; reflexivity.
Qed.

Lemma heartbeat_between_stats_and_response_witness :
  let req := with_payment (Fixture.free_call "echo")
               (free_payment (Fixture.free_call "echo")) in
  let s' := record_success 0 40 Fixture.node0 in
  let sent := [EvHandlerCall "echo" (JObject [("q", JString "hi")]);
               EvSetTimeout 30000;
               call_heartbeat Fixture.cfg0 Fixture.env_down s'] in
  requestsServed (stats s') = 1%float
  /\ post_call Fixture.cfg0 Fixture.env_down req Fixture.node0
     = (Normal tt, s',
        (sent ++ [success_response Fixture.env_down (JObject [("q", JString "hi")]) 0])%list).
Proof.
  assert (Hshape : valid_shape
            (with_payment (Fixture.free_call "echo")
               (free_payment (Fixture.free_call "echo")))
            "echo" (JObject [("q", JString "hi")])).
  { repeat split; try reflexivity. discriminate. }
  pose proof (heartbeat_between_stats_and_response Fixture.cfg0 Fixture.env_down
           (with_payment (Fixture.free_call "echo")
              (free_payment (Fixture.free_call "echo")))
           Fixture.node0 "echo" (JObject [("q", JString "hi")])
           {| handler := Fixture.echo;
              config := {| price := 0; timeout := None; rateLimit := None |} |}
           (free_payment (Fixture.free_call "echo"))
           (JObject [("q", JString "hi")]) 5%float
           Hshape eq_refl eq_refl eq_refl eq_refl eq_refl) as H.
  vm_compute in H. vm_compute. exact H.
Defined.

(** ** Registry lifecycle *)

(** C8: [start()] first sends the registration request.  If the registry
    answers with a non-success status, or the request fails, [start()]
    rejects with an error, nothing but the request has happened — the server
    does not listen — and the state is unchanged; while the request (or the
    text of a non-success answer) is outstanding [start()] stays pending,
    again without listening.  If the registry answers with success, the
    60-second heartbeat timer is armed and recorded in [heartbeatInterval],
    whatever becomes of the listen that follows; the server listens only
    after that, and [start()] resolves when it does. *)
Theorem start_requires_registration (P : Platform) (cfg : Config) (env : Env)
    (s : Node) :
  let url := (registry cfg ++ "/register")%string in
  let payload := register_payload (walletPublicKey cfg) (registration_data P cfg s) in
  (forall r body,
     fetch env url payload = Fulfilled r -> ok r = false ->
     text r = Fulfilled body ->
     start P cfg env s
     = (Abrupt (ProviderNodeError
                  ("Failed to start server: Failed to register: "
                   ++ "RegistryError: Registration failed: " ++ body)),
        s, [register_request P cfg s]))
  /\
  (forall r e,
     fetch env url payload = Fulfilled r -> ok r = false ->
     text r = Rejected e ->
     start P cfg env s
     = (Abrupt (ProviderNodeError
                  ("Failed to start server: Failed to register: "
                   ++ error_to_string P e)),
        s, [register_request P cfg s]))
  /\
  (forall e, fetch env url payload = Rejected e ->
     start P cfg env s
     = (Abrupt (ProviderNodeError
                  ("Failed to start server: Failed to register: "
                   ++ error_to_string P e)),
        s, [register_request P cfg s]))
  /\
  (fetch env url payload = Pending
   \/ (exists r, fetch env url payload = Fulfilled r /\ ok r = false
                 /\ text r = Pending) ->
     start P cfg env s = (Stuck, s, [register_request P cfg s]))
  /\
  (forall r, fetch env url payload = Fulfilled r -> ok r = true ->
     heartbeatInterval (registered s) = Some (next_timer s)
     /\ existsb (Nat.eqb (next_timer s)) (timers (registered s)) = true
     /\ server (registered s) = server s
     /\ started cfg s = set_server (Some (port cfg)) (registered s)
     /\ start P cfg env s
        = match listen env (port cfg) with
          | Listening =>
              (Normal (port cfg), started cfg s,
               [register_request P cfg s;
                EvSetInterval (next_timer s) 60000;
                EvListen (port cfg)])
          | ListenThrows e =>
              (Abrupt (ProviderNodeError
                         ("Failed to start server: "
                          ++ message_or "Unknown error" e)),
               registered s,
               [register_request P cfg s;
                EvSetInterval (next_timer s) 60000])
          | NeverListening =>
              (Stuck, started cfg s,
               [register_request P cfg s;
                EvSetInterval (next_timer s) 60000])
          end).
Proof.
  cbv zeta. unfold start, register, startHeartbeat, register_request.
  split; [ | split; [ | split; [ | split ] ] ].
  - intros r body Hr Hok Ht. task_unfold. step Hr. step Hok. step Ht. reflexivity.
  - intros r e Hr Hok Ht. task_unfold. step Hr. step Hok. step Ht. reflexivity.
  - intros e He. task_unfold. step He. reflexivity.
  - intros [Hp | (r & Hr & Hok & Ht)]; task_unfold.
    + step Hp. reflexivity.
    + step Hr. step Hok. step Ht. reflexivity.
  - intros r Hr Hok.
    split; [ reflexivity | ].
    split; [ unfold registered; cbn [timers set_timer_state];
             rewrite existsb_app; cbn [existsb]; rewrite Nat.eqb_refl;
             apply orb_true_r | ].
    split; [ reflexivity | ].
    split; [ reflexivity | ].
    task_unfold. step Hr. step Hok.
    destruct (listen env (port cfg)); reflexivity.
Qed.

Lemma start_requires_registration_witness :
  start Fixture.plat Fixture.cfg0 Fixture.env_refused Fixture.node0
  = (Abrupt (ProviderNodeError
               "Failed to start server: Failed to register: RegistryError: Registration failed: denied"),
     Fixture.node0, [register_request Fixture.plat Fixture.cfg0 Fixture.node0])
  /\
  start Fixture.plat Fixture.cfg0 Fixture.env_down Fixture.node0
  = (Abrupt (ProviderNodeError
               "Failed to start server: Failed to register: FetchError: connect ECONNREFUSED"),
     Fixture.node0, [register_request Fixture.plat Fixture.cfg0 Fixture.node0])
  /\
  (heartbeatInterval (registered Fixture.node0) = Some 0
   /\ existsb (Nat.eqb 0) (timers (registered Fixture.node0)) = true
   /\ server (registered Fixture.node0) = None
   /\ started Fixture.cfg0 Fixture.node0
      = set_server (Some 9000%float) (registered Fixture.node0)
   /\ start Fixture.plat Fixture.cfg0 Fixture.env_ok Fixture.node0
      = (Normal 9000%float, started Fixture.cfg0 Fixture.node0,
         [register_request Fixture.plat Fixture.cfg0 Fixture.node0;
          EvSetInterval 0 60000;
          EvListen 9000])).
Proof.
  pose proof (start_requires_registration Fixture.plat Fixture.cfg0) as H.
  split; [ | split ].
  - exact (proj1 (H Fixture.env_refused Fixture.node0)
             {| ok := false; text := Fulfilled "denied" |} "denied"
             eq_refl eq_refl eq_refl).
  - exact (proj1 (proj2 (proj2 (H Fixture.env_down Fixture.node0)))
             (ErrorObj "FetchError" "connect ECONNREFUSED") eq_refl).
  - exact (proj2 (proj2 (proj2 (proj2 (H Fixture.env_ok Fixture.node0))))
             {| ok := true; text := Fulfilled "{}" |} eq_refl eq_refl).
Defined.

(** C9, as stated, fails: the node has started and served one call
    ([requestsServed] is 1, the cumulative latency is 40 ms), and the next
    tick of the heartbeat timer still reports zero latency, zero requests
    and zero errors. *)
Lemma tick_ignores_traffic :
  let s1 := state_of (start Fixture.plat Fixture.cfg0 Fixture.env_ok Fixture.node0) in
  let s2 := after_call Fixture.plat Fixture.cfg0 Fixture.env_ok
              (Fixture.free_call "echo") s1 in
  requestsServed (stats s2) = 1%float
  /\ totalLatency s2 = 40%float
  /\ timers s2 = [0]
  /\ trace_of (heartbeat_tick (registry Fixture.cfg0) (walletPublicKey Fixture.cfg0)
                 Fixture.env_ok 0 s2)
     = [EvFetch "http://localhost:3000/api/heartbeat"
          (JObject [("providerId", JString "NodeWallet");
                    ("latency", JNumber 0);
                    ("requestsServed", JNumber 0);
                    ("errors", JNumber 0);
                    ("timestamp", JString (iso_heartbeat Fixture.env_ok))])].
Proof. cbv zeta. repeat split; vm_compute; reflexivity. Qed.

(** C9 (amended): the heartbeat timer is armed with a period of 60000 ms,
    and every tick of an armed timer sends the snapshot with latency 0,
    requestsServed 0 and errors 0, whatever the state of the node, and
    changes nothing in the node. *)
Theorem tick_sends_zeroed_snapshot (registryUrl providerId : string) (env : Env)
    (id : nat) (s : Node) :
  existsb (Nat.eqb id) (timers s) = true ->
  trace_of (startHeartbeat s) = [EvSetInterval (next_timer s) 60000]
  /\ trace_of (heartbeat_tick registryUrl providerId env id s)
     = [EvFetch (registryUrl ++ "/heartbeat")
          (heartbeat_payload providerId zero_health (iso_heartbeat env))]
  /\ state_of (heartbeat_tick registryUrl providerId env id s) = s
  /\ result_of (heartbeat_tick registryUrl providerId env id s) = Normal tt.
Proof.
  intros Harmed. split; [ reflexivity | ].
  unfold heartbeat_tick, heartbeat, zero_health, trace_of, state_of, result_of.
  task_unfold. rewrite Harmed. task_unfold.
  destruct (fetch env _ _) as [r | e | ]; repeat split; reflexivity.
Qed.

Lemma tick_sends_zeroed_snapshot_witness :
  let s := started Fixture.cfg0 Fixture.node0 in
  trace_of (startHeartbeat s) = [EvSetInterval 1 60000]
  /\ trace_of (heartbeat_tick "http://localhost:3000/api" "NodeWallet" Fixture.env_ok 0 s)
     = [EvFetch "http://localhost:3000/api/heartbeat"
          (heartbeat_payload "NodeWallet" zero_health (iso_heartbeat Fixture.env_ok))]
  /\ state_of (heartbeat_tick "http://localhost:3000/api" "NodeWallet" Fixture.env_ok 0 s) = s
  /\ result_of (heartbeat_tick "http://localhost:3000/api" "NodeWallet" Fixture.env_ok 0 s)
     = Normal tt.
Proof.
  cbv zeta.
  exact (tick_sends_zeroed_snapshot "http://localhost:3000/api" "NodeWallet"
           Fixture.env_ok 0 (started Fixture.cfg0 Fixture.node0) eq_refl).
Defined.

(** C10: while no HTTP server instance exists, [stop()] resolves without
    error, sends nothing — in particular no unregister request — clears no
    timer and leaves the whole state, heartbeat timer and stats included,
    as it was. *)
Theorem stop_before_start_is_noop (cfg : Config) (env : Env) (s : Node) :
  server s = None ->
  stop cfg env s = (Normal tt, s, []).
Proof.
  intros Hnone. unfold stop. task_unfold. rewrite Hnone. reflexivity.
Qed.

Lemma stop_before_start_is_noop_witness :
  server Fixture.node0 = None
  /\ stop Fixture.cfg0 Fixture.env_ok Fixture.node0 = (Normal tt, Fixture.node0, []).
Proof.
  split; [ reflexivity | ].
  apply (stop_before_start_is_noop Fixture.cfg0 Fixture.env_ok Fixture.node0).
  reflexivity.
Defined.

(** * Further properties *)

Ltac destruct_scrutinee :=
  match goal with
  | |- context [match ?x with _ => _ end] =>
      lazymatch x with
      | context [match _ with _ => _ end] => fail
      | _ => destruct x eqn:?
      end
  end.

(** Runs a task symbolically, splitting on every test it makes. *)
Ltac explore := task_unfold; repeat (destruct_scrutinee; task_unfold).

(** ** The verifier *)

Lemma verify_cases (P : Platform) (sig wallet : string)
    (conn : option Connection) (s : Node) :
  VerifyOutcome sig conn s (verifySolanaOnChainPayment P sig wallet conn s).
Proof.
  unfold verifySolanaOnChainPayment.
  explore.
  all: try (eapply VerWaitingTransaction; [ reflexivity | eassumption ]).
  all: try (eapply VerWaitingAccount; [ reflexivity | eassumption ]).
  all: cbn -[well_formed_result]; apply VerReturned.
  all: try (left; reflexivity).
  all: try (right; left; reflexivity).
  all: try (right; right; eexists; reflexivity).
  all: unfold well_formed_result; cbn.
  all: try (split; [ reflexivity | eexists; reflexivity ]).
  all: match goal with H : (_ || _) = false |- _ => apply orb_false_elim in H; destruct H end.
  all: eexists; repeat split; eassumption.
Qed.

(** X1: the verifier never throws and never touches the node.  It is left
    waiting only by a chain query that never settles: its transaction
    query, or the account query it made after it.  In every other case it
    returns a well-formed result — valid with an amount that is a number and
    not negative, the signature and no error, or invalid with an error and
    no amount — so it returns one whenever every query settles.  It makes at
    most one transaction query followed by at most one account query. *)
Theorem verify_total (P : Platform) (sig wallet : string)
    (conn : option Connection) (s : Node) :
  let r := verifySolanaOnChainPayment P sig wallet conn s in
  state_of r = s
  /\ match result_of r with
     | Normal v => well_formed_result sig v
     | Abrupt _ => False
     | Stuck =>
         exists c,
           conn = Some c
           /\ ((getParsedTransaction c sig = Pending
                /\ trace_of r = [EvGetParsedTransaction sig])
               \/ exists address,
                    getParsedAccountInfo c address = Pending
                    /\ trace_of r = [EvGetParsedTransaction sig;
                                     EvGetParsedAccountInfo address])
     end
  /\ ((forall c, conn = Some c ->
         getParsedTransaction c sig <> Pending
         /\ forall address, getParsedAccountInfo c address <> Pending) ->
      exists v, result_of r = Normal v /\ well_formed_result sig v)
  /\ (trace_of r = []
      \/ trace_of r = [EvGetParsedTransaction sig]
      \/ exists address,
           trace_of r = [EvGetParsedTransaction sig; EvGetParsedAccountInfo address]).
Proof.
  cbv zeta.
  destruct (verify_cases P sig wallet conn s) as
    [v queries Hwf Hq | c Hc Htx | c address Hc Hacc];
    cbn [state_of result_of trace_of fst snd]; (split; [ reflexivity | ]).
  - split; [ exact Hwf | ].
    split; [ intros _; exists v; split; [ reflexivity | exact Hwf ] | exact Hq ].
  - split; [ exists c; split; [ exact Hc | left; split; [ exact Htx | reflexivity ] ] | ].
    split; [ | right; left; reflexivity ].
    intros Hsettle. destruct (Hsettle c Hc) as [Hne _]. contradiction.
  - split; [ exists c; split;
               [ exact Hc | right; exists address; split; [ exact Hacc | reflexivity ] ] | ].
    split; [ | right; right; exists address; reflexivity ].
    intros Hsettle. destruct (Hsettle c Hc) as [_ Hne]. exfalso. exact (Hne address Hacc).
Qed.

(** ** The route handler of [POST /call] *)

Lemma post_call_outcome (cfg : Config) (env : Env) (req : Request) (s : Node) :
  CallOutcome env s (post_call cfg env req s).
Proof.
  unfold post_call, race, registryClient_heartbeat, heartbeat, amount_lt.
  explore; cbn -[record_success heartbeat_payload effective_timeout set_errorCount].
  all: try (apply OutBadRequest).
  all: try (apply OutInsufficient).
  all: try (apply OutHung; reflexivity).
  all: try match goal with
       | |- CallOutcome _ _ (_, _, [?a; ?b; ?c; EvRespond 200 ?d]) =>
           change [a; b; c; EvRespond 200 d] with ([a; b; c] ++ [EvRespond 200 d])%list;
           apply (OutSuccess env s _ _ [a; b; c] eq_refl)
       | |- CallOutcome _ _ (_, _, [?a; ?b; ?c; EvRespond 500 ?d]) =>
           change [a; b; c; EvRespond 500 d] with ([a; b; c] ++ [EvRespond 500 d])%list;
           apply (OutUnsent env s _ _ [a; b; c] eq_refl)
       end.
  all: try match goal with
       | |- CallOutcome _ _ (_, _, [?a; ?b; ?c]) =>
           change [a; b; c] with ([a; b] ++ [c])%list;
           apply (OutFailure env s _ [a; b] _ eq_refl)
       | |- CallOutcome _ _ (_, _, [?c]) =>
           change [c] with ([] ++ [c])%list;
           apply (OutFailure env s _ [] _ eq_refl)
       end.
  all: auto.
Qed.

Lemma no_response_not_in (pre : list Event) (code : nat) (payload : JsVal) :
  existsb is_response pre = false -> ~ In (EvRespond code payload) pre.
Proof.
  intros Hnone Hin.
  assert (Hex : existsb is_response pre = true).
  { apply existsb_exists. exists (EvRespond code payload). split; [ exact Hin | reflexivity ]. }
  congruence.
Qed.

Lemma response_is_last (pre : list Event) (last : Event) (code : nat) (payload : JsVal) :
  existsb is_response pre = false ->
  In (EvRespond code payload) (pre ++ [last])%list ->
  last = EvRespond code payload.
Proof.
  intros Hnone Hin. apply in_app_or in Hin. destruct Hin as [Hin | [Hin | []]].
  - exfalso. exact (no_response_not_in pre code payload Hnone Hin).
  - exact Hin.
Qed.

(** X2: the route handler never rejects, whatever the request, the handler
    and the registry do.  When it completes it has sent exactly one
    response, as its last action; when it is left waiting for the heartbeat
    it has sent none. *)
Theorem call_answers_once (cfg : Config) (env : Env) (req : Request) (s : Node) :
  match result_of (post_call cfg env req s) with
  | Normal _ =>
      exists pre code payload,
        trace_of (post_call cfg env req s) = (pre ++ [EvRespond code payload])%list
        /\ existsb is_response pre = false
  | Abrupt _ => False
  | Stuck => existsb is_response (trace_of (post_call cfg env req s)) = false
  end.
Proof.
  destruct (post_call_outcome cfg env req s); cbn [result_of trace_of fst snd].
  - exists [], 400, payload. split; reflexivity.
  - exists [], 402, payload. split; reflexivity.
  - eexists pre, 500, _. split; [ reflexivity | assumption ].
  - eexists pre, 200, _. split; [ reflexivity | assumption ].
  - assumption.
  - eexists pre, 500, _. split; [ reflexivity | assumption ].
Qed.

(** X3: a call never touches the handler map, the server reference or the
    heartbeat timer. *)
Theorem call_frame (cfg : Config) (env : Env) (req : Request) (s : Node) :
  let s' := state_of (post_call cfg env req s) in
  handlers s' = handlers s
  /\ server s' = server s
  /\ heartbeatInterval s' = heartbeatInterval s
  /\ timers s' = timers s
  /\ next_timer s' = next_timer s.
Proof.
  cbv zeta.
  destruct (post_call_outcome cfg env req s); cbn [state_of fst snd];
    repeat split; reflexivity.
Qed.



(** X5: once the stored average latency equals the cumulative latency divided
    by the number of requests served, every later call keeps it so, whether
    it succeeds or fails; and a call answered 200 establishes it. *)
Theorem average_latency_invariant (cfg : Config) (env : Env) (req : Request)
    (s : Node) :
  (average_consistent s -> average_consistent (state_of (post_call cfg env req s)))
  /\ (forall payload,
        In (EvRespond 200 payload) (trace_of (post_call cfg env req s)) ->
        average_consistent (state_of (post_call cfg env req s))).
Proof.
  unfold average_consistent.
  destruct (post_call_outcome cfg env req s) as
    [p | p | message pre n Hpre Hn | cost data pre Hpre | cost pre Hpre
     | cost message pre Hpre];
    cbn [state_of trace_of fst snd]; split.
  - intros H; exact H.
  - intros payload [Hin | []]. discriminate Hin.
  - intros H; exact H.
  - intros payload [Hin | []]. discriminate Hin.
  - intros H; exact H.
  - intros payload Hin.
    apply (response_is_last pre _ 200 payload Hpre) in Hin. discriminate Hin.
  - intros _. reflexivity.
  - intros payload _. reflexivity.
  - intros _. reflexivity.
  - intros payload Hin. exfalso.
    exact (no_response_not_in pre 200 payload Hpre Hin).
  - intros _. reflexivity.
  - intros payload _. reflexivity.
Qed.

Lemma average_latency_invariant_witness :
  let served := state_of (post_call Fixture.cfg0 Fixture.env_ok
                            (with_payment (Fixture.free_call "echo")
                               (free_payment (Fixture.free_call "echo")))
                            Fixture.node0) in
  average_consistent served
  /\ average_consistent
       (state_of (post_call Fixture.cfg0 Fixture.env_ok
                    (with_payment (Fixture.free_call "boom")
                       (free_payment (Fixture.free_call "boom")))
                    served)).
Proof.
  cbv zeta.
  assert (H : average_consistent
                (state_of (post_call Fixture.cfg0 Fixture.env_ok
                             (with_payment (Fixture.free_call "echo")
                                (free_payment (Fixture.free_call "echo")))
                             Fixture.node0))).
  { vm_compute. reflexivity. }
  split; [ exact H | ].
  exact (proj1 (average_latency_invariant Fixture.cfg0 Fixture.env_ok
                  (with_payment (Fixture.free_call "boom")
                     (free_payment (Fixture.free_call "boom")))
                  _) H).
Defined.

(** X6: when the race is lost or the handler fails — the handler never
    settles, settles after the delay Node arms for the timeout (1 ms for a
    timeout below 1 or above 2^31 - 1), or rejects — the call is answered
    500 with the error's message ("Handler timeout" for a lost race), the
    handler has been invoked once, no heartbeat is sent, [errorCount] is
    raised by exactly one and the stats are untouched: no request is counted
    and nothing is earned. *)
Theorem handler_failure_counted_once (cfg : Config) (env : Env) (req : Request)
    (s : Node) (name : string) (params : JsVal) (reg : HandlerReg)
    (pay : Payment) (e : Thrown) :
  valid_shape req name params ->
  assoc name (handlers s) = Some reg ->
  payment req = Some pay ->
  amount_lt (amount pay) (price (config reg)) = false ->
  race_error (handler reg params) (effective_timeout (config reg)) = Some e ->
  post_call cfg env req s
  = (Normal tt,
     set_errorCount (errorCount s + 1)%float s,
     [EvHandlerCall name params;
      EvSetTimeout (effective_timeout (config reg));
      failure_response env (message_or "Internal server error" e)]).
Proof.
  intros Hshape Hreg Hpay Hprice Hrace.
  enter_call Hshape.
  rewrite Hreg, Hpay, Hprice.
  unfold race, race_error in *. task_unfold.
  destruct (handler reg params) as [d after | e' after | | e' after];
    try destruct (after <=? timer_delay (effective_timeout (config reg)))%float;
    try discriminate Hrace;
    inversion Hrace; subst; reflexivity.
Qed.

Lemma handler_failure_counted_once_witness :
  post_call Fixture.cfg0 Fixture.env_ok
    (with_payment (Fixture.free_call "boom") (free_payment (Fixture.free_call "boom")))
    Fixture.node0
  = (Normal tt,
     set_errorCount 1%float Fixture.node0,
     [EvHandlerCall "boom" (JObject [("q", JString "hi")]);
      EvSetTimeout 30000;
      failure_response Fixture.env_ok "boom"]).
Proof.
  assert (Hshape : valid_shape
            (with_payment (Fixture.free_call "boom")
               (free_payment (Fixture.free_call "boom")))
            "boom" (JObject [("q", JString "hi")])).
  { repeat split; try reflexivity. discriminate. }
  pose proof (handler_failure_counted_once Fixture.cfg0 Fixture.env_ok _
                Fixture.node0 "boom" (JObject [("q", JString "hi")])
                {| handler := Fixture.boom;
                   config := {| price := 0; timeout := None; rateLimit := None |} |}
                (free_payment (Fixture.free_call "boom"))
                (ErrorObj "Error" "boom")
                Hshape eq_refl eq_refl eq_refl eq_refl) as H.
  vm_compute in H. vm_compute. exact H.
Defined.

(** X7: the timer of the race is never armed with 0 or NaN: a configured
    timeout of 0 (or NaN) is replaced by 30000 ms like an absent one, and
    any other configured value is used as it is. *)
Theorem effective_timeout_never_zero (c : APIConfig) :
  truthy (JNumber (effective_timeout c)) = true
  /\ (forall t, timeout c = Some t -> truthy (JNumber t) = true ->
        effective_timeout c = t)
  /\ (forall t, timeout c = Some t -> truthy (JNumber t) = false ->
        effective_timeout c = 30000%float)
  /\ (timeout c = None -> effective_timeout c = 30000%float).
Proof.
  unfold effective_timeout.
  destruct (timeout c) as [t | ].
  - destruct (truthy (JNumber t)) eqn:Ht.
    + split; [ exact Ht | ].
      split; [ intros t0 H _; inversion H; reflexivity | ].
      split; [ intros t0 H Hf; inversion H; subst; congruence | ].
      intros H; discriminate.
    + split; [ reflexivity | ].
      split; [ intros t0 H Ht0; inversion H; subst; congruence | ].
      split; [ intros; reflexivity | intros H; discriminate ].
  - split; [ reflexivity | ].
    split; [ intros t0 H; discriminate | ].
    split; [ intros t0 H; discriminate | reflexivity ].
Qed.

(** ** The handler map *)

Lemma assoc_map_set_same {V : Type} (k : string) (v : V) (m : list (string * V)) :
  assoc k (map_set k v m) = Some v.
Proof.
  induction m as [ | [k' v'] rest IH]; simpl.
  - rewrite String.eqb_refl. reflexivity.
  - destruct (String.eqb k' k) eqn:E; simpl.
    + rewrite String.eqb_refl. reflexivity.
    + rewrite E. exact IH.
Qed.

Lemma assoc_map_set_other {V : Type} (k k0 : string) (v : V) (m : list (string * V)) :
  k0 <> k -> assoc k0 (map_set k v m) = assoc k0 m.
Proof.
  intros Hne. induction m as [ | [k' v'] rest IH]; simpl.
  - destruct (String.eqb k k0) eqn:E; [ | reflexivity ].
    apply String.eqb_eq in E. congruence.
  - destruct (String.eqb k' k) eqn:E; simpl.
    + apply String.eqb_eq in E. subst k'.
      destruct (String.eqb k k0) eqn:E0; [ | reflexivity ].
      apply String.eqb_eq in E0. congruence.
    + destruct (String.eqb k' k0); [ reflexivity | exact IH ].
Qed.

(** X8: after [addAPI(name, handler, config)] the lookup of [name] finds the
    registration just made, whatever was registered under that name before
    (last write wins), and the lookup of every other name is unchanged.  The
    stored price is the configured one if given, 0 included, and the default
    price otherwise. *)
Theorem addAPI_last_write_wins (cfg : Config) (name : string) (h : APIHandler)
    (c : option PartialAPIConfig) (s : Node) :
  let s' := state_of (addAPI cfg name h c s) in
  assoc name (handlers s') = Some (registration_of cfg h c)
  /\ (forall other, other <> name ->
        assoc other (handlers s') = assoc other (handlers s))
  /\ (forall pc p, c = Some pc -> pc_price pc = Some p ->
        price (config (registration_of cfg h c)) = p)
  /\ ((c = None \/ exists pc, c = Some pc /\ pc_price pc = None) ->
        price (config (registration_of cfg h c)) = defaultPrice cfg).
Proof.
  cbv zeta. unfold addAPI, modify, state_of. cbn [fst snd set_handlers handlers].
  split; [ apply assoc_map_set_same | ].
  split; [ intros other Hne; apply assoc_map_set_other; exact Hne | ].
  split.
  - intros pc p Hc Hp. subst c. cbn. rewrite Hp. reflexivity.
  - intros [Hc | (pc & Hc & Hp)]; subst c; cbn; [ | rewrite Hp ]; reflexivity.
Qed.

Lemma map_keys_map_set {V : Type} (k : string) (v : V) (m : list (string * V)) :
  map_keys (map_set k v m)
  = match assoc k m with
    | Some _ => map_keys m
    | None => (map_keys m ++ [k])%list
    end.
Proof.
  unfold map_keys. induction m as [ | [k' v'] rest IH]; simpl.
  - reflexivity.
  - destruct (String.eqb k' k) eqn:E; simpl.
    + apply String.eqb_eq in E. subst k'. reflexivity.
    + rewrite IH. destruct (assoc k rest); reflexivity.
Qed.

(** X9: registering under a name already present keeps the list of API names
    as it is, order included; registering a new name appends it.  Either way
    the names stay free of duplicates. *)
Theorem addAPI_keys (cfg : Config) (name : string) (h : APIHandler)
    (c : option PartialAPIConfig) (s : Node) :
  let keys' := map_keys (handlers (state_of (addAPI cfg name h c s))) in
  (forall reg, assoc name (handlers s) = Some reg -> keys' = map_keys (handlers s))
  /\ (assoc name (handlers s) = None ->
        keys' = (map_keys (handlers s) ++ [name])%list)
  /\ (NoDup (map_keys (handlers s)) -> NoDup keys').
Proof.
  cbv zeta. unfold addAPI, modify, state_of. cbn [fst snd set_handlers handlers].
  rewrite map_keys_map_set.
  split; [ intros reg Hreg; rewrite Hreg; reflexivity | ].
  split; [ intros Hnone; rewrite Hnone; reflexivity | ].
  intros Hnd. destruct (assoc name (handlers s)) eqn:E; [ exact Hnd | ].
  apply NoDup_app; [ exact Hnd | constructor; [ intros [] | constructor ] | ].
  intros x Hin [Hx | []]. subst x.
  unfold map_keys in Hin. apply in_map_iff in Hin.
  destruct Hin as ([k v] & Hk & Hin). simpl in Hk. subst k.
  clear Hnd. induction (handlers s) as [ | [k' v'] rest IH]; [ exact Hin | ].
  simpl in E. destruct (String.eqb k' name) eqn:E'; [ discriminate | ].
  destruct Hin as [Hin | Hin].
  - inversion Hin; subst. rewrite String.eqb_refl in E'. discriminate.
  - exact (IH E Hin).
Qed.

(** ** The registry client *)

(** X10: [heartbeat] sends exactly one request and never throws: an answer of
    any status and a failed request both complete normally, and the node's
    state is not touched. *)
Theorem heartbeat_swallows_failures (registryUrl providerId : string) (env : Env)
    (health : Health) (s : Node) :
  let url := (registryUrl ++ "/heartbeat")%string in
  let payload := heartbeat_payload providerId health (iso_heartbeat env) in
  heartbeat registryUrl providerId env health s
  = (match fetch env url payload with
     | Pending => Stuck
     | _ => Normal tt
     end, s, [EvFetch url payload]).
Proof.
  cbv zeta. unfold heartbeat. task_unfold.
  destruct (fetch env _ _); reflexivity.
Qed.

Lemma disarmed_after_filter (id : nat) (l : list nat) :
  existsb (Nat.eqb id) (filter (fun t => negb (Nat.eqb t id)) l) = false.
Proof.
  induction l as [ | t rest IH]; simpl; [ reflexivity | ].
  destruct (Nat.eqb t id) eqn:E; simpl; [ exact IH | ].
  rewrite Nat.eqb_sym, E. exact IH.
Qed.

(** X11: [unregister] first clears the heartbeat timer and then sends one
    unregister request; it never throws, whether the request is answered or
    fails.  Afterwards the timer is not armed, so a later expiry of it sends
    nothing. *)
Theorem unregister_disarms_heartbeat (registryUrl providerId : string) (env : Env)
    (id : nat) (s : Node) :
  heartbeatInterval s = Some id ->
  let r := unregister registryUrl providerId env s in
  trace_of r = [EvClearInterval id; unregister_request registryUrl providerId]
  /\ result_of r
     = match fetch env (registryUrl ++ "/unregister")
               (JObject [("providerId", JString providerId)]) with
       | Pending => Stuck
       | _ => Normal tt
       end
  /\ armed id (state_of r) = false
  /\ forall env', heartbeat_tick registryUrl providerId env' id (state_of r)
                  = (Normal tt, state_of r, []).
Proof.
  intros Hhb. cbv zeta.
  assert (Hstate : state_of (unregister registryUrl providerId env s)
                   = set_timer_state (Some id)
                       (filter (fun t => negb (Nat.eqb t id)) (timers s))
                       (next_timer s) s).
  { unfold unregister, stopHeartbeat, state_of. task_unfold. rewrite Hhb. task_unfold.
    destruct (fetch env _ _); reflexivity. }
  assert (Harmed : armed id (state_of (unregister registryUrl providerId env s)) = false).
  { rewrite Hstate. unfold armed. cbn [timers set_timer_state].
    apply disarmed_after_filter. }
  split; [ | split; [ | split; [ exact Harmed | ] ] ].
  - unfold unregister, stopHeartbeat, trace_of, unregister_request.
    task_unfold. rewrite Hhb. task_unfold.
    destruct (fetch env _ _); reflexivity.
  - unfold unregister, stopHeartbeat, result_of.
    task_unfold. rewrite Hhb. task_unfold.
    destruct (fetch env _ _); reflexivity.
  - intros env'. unfold heartbeat_tick. task_unfold.
    unfold armed in Harmed. rewrite Harmed. reflexivity.
Qed.

Lemma unregister_disarms_heartbeat_witness :
  let s := started Fixture.cfg0 Fixture.node0 in
  let r := unregister "http://localhost:3000/api" "NodeWallet" Fixture.env_down s in
  trace_of r = [EvClearInterval 0; unregister_request "http://localhost:3000/api" "NodeWallet"]
  /\ result_of r = Normal tt
  /\ armed 0 (state_of r) = false
  /\ forall env', heartbeat_tick "http://localhost:3000/api" "NodeWallet" env' 0 (state_of r)
                  = (Normal tt, state_of r, []).
Proof.
  cbv zeta.
  exact (unregister_disarms_heartbeat "http://localhost:3000/api" "NodeWallet"
           Fixture.env_down 0 (started Fixture.cfg0 Fixture.node0) eq_refl).
Defined.

(** ** Start and stop *)

Lemma start_accepted (P : Platform) (cfg : Config) (env : Env) (s : Node) :
  registry_accepts env ->
  listen env (port cfg) = Listening ->
  start P cfg env s
  = (Normal (port cfg), started cfg s,
     [register_request P cfg s; EvSetInterval (next_timer s) 60000; EvListen (port cfg)]).
Proof.
  intros Hacc Hlisten.
  destruct (Hacc (registry cfg ++ "/register")
              (register_payload (walletPublicKey cfg) (registration_data P cfg s)))
    as (r & Hr & Hok).
  unfold start, register, startHeartbeat, register_request.
  task_unfold. step Hr. step Hok. step Hlisten. reflexivity.
Qed.

Lemma stop_started (cfg : Config) (env : Env) (s : Node) (p : float) (id : nat) :
  registry_accepts env ->
  server s = Some p ->
  heartbeatInterval s = Some id ->
  stop cfg env s
  = (Normal tt,
     set_timer_state (Some id) (filter (fun t => negb (Nat.eqb t id)) (timers s))
       (next_timer s) s,
     [EvClearInterval id; unregister_request (registry cfg) (walletPublicKey cfg);
      EvClose]).
Proof.
  intros Hacc Hserver Hhb.
  destruct (Hacc (registry cfg ++ "/unregister")
              (JObject [("providerId", JString (walletPublicKey cfg))]))
    as (r & Hr & _).
  unfold stop, unregister, stopHeartbeat, unregister_request.
  task_unfold. step Hserver. step Hhb. step Hr. reflexivity.
Qed.

Lemma filter_twice (id : nat) (l : list nat) :
  filter (fun t => negb (Nat.eqb t id)) (filter (fun t => negb (Nat.eqb t id)) l)
  = filter (fun t => negb (Nat.eqb t id)) l.
Proof.
  induction l as [ | t rest IH]; simpl; [ reflexivity | ].
  destruct (Nat.eqb t id) eqn:E; simpl; [ exact IH | ].
  rewrite E. simpl. rewrite IH. reflexivity.
Qed.

(** X12: [stop()] on a started node clears the heartbeat timer, sends the
    unregister request and closes the server, but keeps the server
    reference.  A second [stop()] therefore does all of it again — a second
    [clearInterval], a second unregister request, a second [close] — without
    throwing, and leaves the state as the first one left it. *)
Theorem stop_twice_repeats_unregister (cfg : Config) (env : Env) (s : Node)
    (p : float) (id : nat) :
  registry_accepts env ->
  server s = Some p ->
  heartbeatInterval s = Some id ->
  let once := stop cfg env s in
  let twice := stop cfg env (state_of once) in
  trace_of once
  = [EvClearInterval id; unregister_request (registry cfg) (walletPublicKey cfg);
     EvClose]
  /\ server (state_of once) = Some p
  /\ twice = (Normal tt, state_of once, trace_of once).
Proof.
  intros Hacc Hserver Hhb. cbv zeta.
  rewrite (stop_started cfg env s p id Hacc Hserver Hhb).
  cbn [trace_of state_of fst snd].
  split; [ reflexivity | ]. split; [ exact Hserver | ].
  rewrite (stop_started cfg env
             (set_timer_state (Some id)
                (filter (fun t => negb (Nat.eqb t id)) (timers s)) (next_timer s) s)
             p id Hacc Hserver eq_refl).
  cbn [timers set_timer_state next_timer]. rewrite filter_twice.
  reflexivity.
Qed.

Lemma stop_twice_repeats_unregister_witness :
  let s := started Fixture.cfg0 Fixture.node0 in
  let once := stop Fixture.cfg0 Fixture.env_ok s in
  let twice := stop Fixture.cfg0 Fixture.env_ok (state_of once) in
  trace_of once
  = [EvClearInterval 0;
     unregister_request (registry Fixture.cfg0) (walletPublicKey Fixture.cfg0);
     EvClose]
  /\ server (state_of once) = Some 9000%float
  /\ twice = (Normal tt, state_of once, trace_of once).
Proof.
  cbv zeta.
  apply (stop_twice_repeats_unregister Fixture.cfg0 Fixture.env_ok
           (started Fixture.cfg0 Fixture.node0) 9000%float 0).
  - intros url payload. exists {| ok := true; text := Fulfilled "{}" |}. split; reflexivity.
  - reflexivity.
  - reflexivity.
Defined.

Lemma filter_fresh (id : nat) (l : list nat) :
  existsb (Nat.eqb id) l = false ->
  filter (fun t => negb (Nat.eqb t id)) (l ++ [id]) = l.
Proof.
  induction l as [ | t rest IH]; simpl.
  - intros _. rewrite Nat.eqb_refl. reflexivity.
  - intros H. apply orb_false_elim in H. destruct H as [Ht Hrest].
    rewrite Nat.eqb_sym, Ht. simpl. rewrite (IH Hrest). reflexivity.
Qed.

(** X13: a successful [start()] — the registry accepts and the server comes
    to listen — followed by [stop()] leaves no timer behind: the armed
    timers are those armed before, provided the identifier handed out next
    was not in use.  Handlers, stats and counters are as before. *)
Theorem start_stop_leaves_no_timer (P : Platform) (cfg : Config) (env : Env)
    (s : Node) :
  registry_accepts env ->
  listen env (port cfg) = Listening ->
  armed (next_timer s) s = false ->
  let s1 := state_of (start P cfg env s) in
  let s2 := state_of (stop cfg env s1) in
  armed (next_timer s) s1 = true
  /\ timers s2 = timers s
  /\ handlers s2 = handlers s /\ stats s2 = stats s
  /\ totalLatency s2 = totalLatency s /\ errorCount s2 = errorCount s.
Proof.
  intros Hacc Hlisten Hfresh. cbv zeta.
  rewrite (start_accepted P cfg env s Hacc Hlisten). cbn [state_of fst snd].
  rewrite (stop_started cfg env (started cfg s) (port cfg) (next_timer s) Hacc eq_refl eq_refl).
  cbn [state_of fst snd]. unfold armed, started in *.
  cbn [timers set_timer_state set_server handlers stats totalLatency errorCount].
  split.
  - rewrite existsb_app. simpl. rewrite Nat.eqb_refl. apply orb_true_r.
  - split; [ apply filter_fresh; exact Hfresh | repeat split ].
Qed.

Lemma start_stop_leaves_no_timer_witness :
  let s1 := state_of (start Fixture.plat Fixture.cfg0 Fixture.env_ok Fixture.node0) in
  let s2 := state_of (stop Fixture.cfg0 Fixture.env_ok s1) in
  armed 0 s1 = true
  /\ timers s2 = []
  /\ handlers s2 = handlers Fixture.node0 /\ stats s2 = stats Fixture.node0
  /\ totalLatency s2 = totalLatency Fixture.node0
  /\ errorCount s2 = errorCount Fixture.node0.
Proof.
  cbv zeta.
  apply (start_stop_leaves_no_timer Fixture.plat Fixture.cfg0 Fixture.env_ok Fixture.node0).
  - intros url payload. exists {| ok := true; text := Fulfilled "{}" |}. split; reflexivity.
  - reflexivity.
  - reflexivity.
Defined.

Lemma register_accepted (P : Platform) (registryUrl providerId : string) (env : Env)
    (data : Registration) (s : Node) :
  registry_accepts env ->
  register P registryUrl providerId env data s
  = (Normal tt,
     set_timer_state (Some (next_timer s)) (timers s ++ [next_timer s])%list
       (S (next_timer s)) s,
     [EvFetch (registryUrl ++ "/register") (register_payload providerId data);
      EvSetInterval (next_timer s) 60000]).
Proof.
  intros Hacc.
  destruct (Hacc (registryUrl ++ "/register") (register_payload providerId data))
    as (r & Hr & Hok).
  unfold register, startHeartbeat. task_unfold. step Hr. step Hok. reflexivity.
Qed.

(** X14: registering twice arms two heartbeat timers and keeps only the
    second in [heartbeatInterval]; [unregister] then clears the second, and
    the first stays armed and goes on sending heartbeats after the node has
    unregistered. *)
Theorem second_register_leaks_timer (P : Platform) (registryUrl providerId : string)
    (env : Env) (data : Registration) (s : Node) :
  registry_accepts env ->
  let s1 := state_of (register P registryUrl providerId env data s) in
  let s2 := state_of (register P registryUrl providerId env data s1) in
  let s3 := state_of (unregister registryUrl providerId env s2) in
  heartbeatInterval s2 = Some (S (next_timer s))
  /\ armed (S (next_timer s)) s3 = false
  /\ armed (next_timer s) s3 = true
  /\ trace_of (heartbeat_tick registryUrl providerId env (next_timer s) s3)
     = [EvFetch (registryUrl ++ "/heartbeat")
          (heartbeat_payload providerId zero_health (iso_heartbeat env))].
Proof.
  intros Hacc. cbv zeta.
  rewrite (register_accepted P registryUrl providerId env data s Hacc).
  cbn [state_of fst snd].
  rewrite (register_accepted P registryUrl providerId env data _ Hacc).
  cbn [state_of fst snd next_timer timers set_timer_state].
  assert (Hstate : state_of (unregister registryUrl providerId env
                     (set_timer_state (Some (S (next_timer s)))
                        ((timers s ++ [next_timer s]) ++ [S (next_timer s)])%list
                        (S (S (next_timer s)))
                        (set_timer_state (Some (next_timer s))
                           (timers s ++ [next_timer s])%list (S (next_timer s)) s)))
                   = set_timer_state (Some (S (next_timer s)))
                       (filter (fun t => negb (Nat.eqb t (S (next_timer s))))
                          ((timers s ++ [next_timer s]) ++ [S (next_timer s)])%list)
                       (S (S (next_timer s))) s).
  { unfold unregister, stopHeartbeat, state_of. task_unfold.
    cbn [heartbeatInterval set_timer_state]. task_unfold.
    destruct (fetch env _ _); reflexivity. }
  rewrite Hstate.
  assert (Harmed : armed (next_timer s)
            (set_timer_state (Some (S (next_timer s)))
               (filter (fun t => negb (Nat.eqb t (S (next_timer s))))
                  ((timers s ++ [next_timer s]) ++ [S (next_timer s)])%list)
               (S (S (next_timer s))) s) = true).
  { unfold armed. cbn [timers set_timer_state].
    apply existsb_exists. exists (next_timer s). split; [ | apply Nat.eqb_refl ].
    apply filter_In. split.
    - apply in_or_app. left. apply in_or_app. right. left. reflexivity.
    - apply negb_true_iff. apply Nat.eqb_neq. lia. }
  split; [ reflexivity | ].
  split; [ unfold armed; cbn [timers set_timer_state]; apply disarmed_after_filter | ].
  split; [ exact Harmed | ].
  unfold heartbeat_tick, heartbeat, zero_health, trace_of. task_unfold.
  unfold armed in Harmed. rewrite Harmed. task_unfold.
  destruct (fetch env _ _); reflexivity.
Qed.

Lemma second_register_leaks_timer_witness :
  let data := registration_data Fixture.plat Fixture.cfg0 Fixture.node0 in
  let s1 := state_of (register Fixture.plat "http://localhost:3000/api" "NodeWallet"
                        Fixture.env_ok data Fixture.node0) in
  let s2 := state_of (register Fixture.plat "http://localhost:3000/api" "NodeWallet"
                        Fixture.env_ok data s1) in
  let s3 := state_of (unregister "http://localhost:3000/api" "NodeWallet"
                        Fixture.env_ok s2) in
  heartbeatInterval s2 = Some 1
  /\ armed 1 s3 = false
  /\ armed 0 s3 = true
  /\ trace_of (heartbeat_tick "http://localhost:3000/api" "NodeWallet"
                 Fixture.env_ok 0 s3)
     = [EvFetch "http://localhost:3000/api/heartbeat"
          (heartbeat_payload "NodeWallet" zero_health (iso_heartbeat Fixture.env_ok))].
Proof.
  cbv zeta.
  apply (second_register_leaks_timer Fixture.plat "http://localhost:3000/api"
           "NodeWallet" Fixture.env_ok
           (registration_data Fixture.plat Fixture.cfg0 Fixture.node0) Fixture.node0).
  intros url payload. exists {| ok := true; text := Fulfilled "{}" |}. split; reflexivity.
Defined.

(** ** The payment gate, continued *)

Lemma gate_cases (P : Platform) (wallet : string) (supported : list string)
    (conn : Connection) (req : Request) (s : Node) :
  GateOutcome req s (paymentMiddleware P wallet supported conn req s).
Proof.
  unfold paymentMiddleware, verifyPayment, verifySolanaOnChainPayment, providersConnection.
  explore.
  all: try (cbn in *; discriminate).
  all: cbn -[free_payment jstr_opt].
  all: try (apply GateBypass; apply String.eqb_eq; assumption).
  all: try (apply GateFree).
  all: try (apply GateUnsupported).
  all: try (apply GateWaiting; reflexivity).
  all: try match goal with
       | |- GateOutcome _ _ (Normal None, _, [EvRespond 402 (JObject (_ :: [(_, jstr_opt ?e)]))]) =>
           apply (GateRejected req s []
                    {| valid := false; v_amount := None; v_from := JUndefined;
                       v_signature := None; v_error := e |} eq_refl eq_refl)
       | |- GateOutcome _ _ (Normal None, _, [?a; EvRespond 402 (JObject (_ :: [(_, jstr_opt ?e)]))]) =>
           apply (GateRejected req s [a]
                    {| valid := false; v_amount := None; v_from := JUndefined;
                       v_signature := None; v_error := e |} eq_refl eq_refl)
       | |- GateOutcome _ _ (Normal None, _, [?a; ?b; EvRespond 402 (JObject (_ :: [(_, jstr_opt ?e)]))]) =>
           apply (GateRejected req s [a; b]
                    {| valid := false; v_amount := None; v_from := JUndefined;
                       v_signature := None; v_error := e |} eq_refl eq_refl)
       end.
  all: match goal with H : (_ || _) = false |- _ => apply orb_false_elim in H; destruct H end.
  all: match goal with
       | |- GateOutcome _ _ (Normal (Some (with_payment _ {| amount := Some ?a; from := ?f; signature := Some ?t; chain := _ |})), _, ?q) =>
           apply (GateVerified req s q t
                    {| valid := true; v_amount := Some a; v_from := f;
                       v_signature := Some t; v_error := None |} a)
       end.
  all: try reflexivity; try assumption.
Qed.

Lemma queries_are_not_responses (queries : list Event) :
  forallb is_chain_query queries = true -> existsb is_response queries = false.
Proof.
  induction queries as [ | e rest IH]; simpl; [ reflexivity | ].
  intros H. apply andb_true_iff in H. destruct H as [He Hrest].
  rewrite (IH Hrest). destruct e; try discriminate He; reflexivity.
Qed.

(** X15: the gate never throws and never touches the node.  It either calls
    [next()] without having answered, or answers once, with a 400 or a 402
    as its last action, or is left waiting for the chain.  When it calls
    [next()] outside the health check, the [payment] member of the request
    it passes on is a claim whose amount is a number and not negative, and
    the body of the request is as received. *)
Theorem gate_outcome (P : Platform) (wallet : string) (supported : list string)
    (conn : Connection) (req : Request) (s : Node) :
  let r := paymentMiddleware P wallet supported conn req s in
  state_of r = s
  /\ match result_of r with
     | Abrupt _ => False
     | Stuck => existsb is_response (trace_of r) = false
     | Normal None =>
         exists pre code payload,
           trace_of r = (pre ++ [EvRespond code payload])%list
           /\ (code = 400 \/ code = 402)
           /\ existsb is_response pre = false
     | Normal (Some req') =>
         existsb is_response (trace_of r) = false
         /\ ((req' = req /\ path req = "/health")
             \/ exists p a,
                  req' = with_payment req p
                  /\ payment req' = Some p /\ body req' = body req
                  /\ amount p = Some a
                  /\ (a <? 0)%float = false /\ PrimFloat.is_nan a = false)
     end.
Proof.
  cbv zeta.
  destruct (gate_cases P wallet supported conn req s) as
    [Hpath | | payload | queries v Hq Hv | queries token v a Hq Htok Ha Hneg Hnan
     | queries Hq];
    cbn [state_of result_of trace_of fst snd]; (split; [ reflexivity | ]).
  - split; [ reflexivity | left; split; [ reflexivity | exact Hpath ] ].
  - split; [ reflexivity | ].
    right. exists (free_payment req), 0%float. repeat split.
  - exists [], 400, payload. repeat split. left; reflexivity.
  - eexists queries, 402, _. split; [ reflexivity | ].
    split; [ right; reflexivity | apply queries_are_not_responses; exact Hq ].
  - split; [ apply queries_are_not_responses; exact Hq | ].
    right. eexists; exists a.
    split; [ reflexivity | ]. split; [ reflexivity | ]. split; [ reflexivity | ].
    repeat split; assumption.
  - apply queries_are_not_responses; exact Hq.
Qed.

(** X16: a payment proof presented for a chain outside the supported list is
    refused with a 400 that lists the supported chains, before any chain
    query. *)
Theorem unsupported_chain_refused (P : Platform) (wallet : string)
    (supported : list string) (conn : Connection) (req : Request) (s : Node)
    (token : string) :
  path req <> "/health" ->
  proof_to_verify req token ->
  includes supported (requested_chain req) = false ->
  paymentMiddleware P wallet supported conn req s
  = (Normal None, s,
     [EvRespond 400 (JObject [("error", JString "Unsupported chain");
                              ("supported", jchains supported)])]).
Proof.
  intros Hpath (Htok & Hne & Hnf) Hchain.
  apply String.eqb_neq in Hpath, Hne, Hnf.
  unfold paymentMiddleware. task_unfold.
  rewrite Hpath, Htok, Hne, Hnf, Hchain. reflexivity.
Qed.

Lemma unsupported_chain_refused_witness :
  let req := {| method := "POST"; path := "/call"; x_payment := Some "sig-paid";
                x_payment_chain := Some "base";
                body := JObject [("api", JString "echo"); ("params", JObject [])];
                payment := None |} in
  paymentMiddleware Fixture.plat "NodeWallet" ["solana"] Fixture.chain0 req initial_node
  = (Normal None, initial_node,
     [EvRespond 400 (JObject [("error", JString "Unsupported chain");
                              ("supported", jchains ["solana"])])]).
Proof.
  cbv zeta.
  apply (unsupported_chain_refused Fixture.plat "NodeWallet" ["solana"] Fixture.chain0
           _ initial_node "sig-paid").
  - simpl. discriminate.
  - repeat split; discriminate.
  - reflexivity.
Defined.

Lemma includes_eq (supported : list string) (c d : string) :
  String.eqb c d = true -> includes supported c = includes supported d.
Proof. intros H. apply String.eqb_eq in H. subst. reflexivity. Qed.

(** X17: a node whose supported chains do not include "solana" never
    queries a chain, and refuses every payment proof it is asked to verify:
    with the 400 "Unsupported chain" when the requested chain is not
    supported, and with the 402 "Invalid payment" of the verifier's
    "Unsupported chain for payment verification." when it is.  Such a node
    only lets free calls through. *)
Theorem without_solana_only_free_calls (P : Platform) (wallet : string)
    (supported : list string) (conn : Connection) (req : Request) (s : Node) :
  includes supported "solana" = false ->
  let r := paymentMiddleware P wallet supported conn req s in
  existsb is_chain_query (trace_of r) = false
  /\ (forall token,
        path req <> "/health" -> proof_to_verify req token ->
        (includes supported (requested_chain req) = false ->
           r = (Normal None, s,
                [EvRespond 400 (JObject [("error", JString "Unsupported chain");
                                         ("supported", jchains supported)])]))
        /\ (includes supported (requested_chain req) = true ->
              r = (Normal None, s,
                   [EvRespond 402
                      (JObject [("error", JString "Invalid payment");
                                ("message",
                                 JString "Unsupported chain for payment verification.")])]))).
Proof.
  intros Hsol. cbv zeta.
  unfold paymentMiddleware, verifyPayment, providersConnection, trace_of.
  rewrite Hsol. task_unfold.
  destruct (String.eqb (path req) "/health") eqn:Hpath.
  { split; [ reflexivity | ].
    intros token Hp. apply String.eqb_neq in Hp. congruence. }
  destruct (x_payment req) as [t | ] eqn:Htok.
  2:{ split; [ reflexivity | ]. intros token _ (H & _). congruence. }
  destruct (String.eqb t "" || String.eqb t "free-api-call") eqn:Hfree.
  { split; [ reflexivity | ].
    intros token _ (H & Hne & Hnf). rewrite Htok in H. inversion H; subst.
    apply String.eqb_neq in Hne, Hnf. rewrite Hne, Hnf in Hfree. discriminate Hfree. }
  destruct (includes supported (requested_chain req)) eqn:Hinc; cbn [negb].
  - destruct (String.eqb (requested_chain req) "solana") eqn:Hreq.
    + rewrite (includes_eq supported _ _ Hreq) in Hinc. congruence.
    + task_unfold. cbn.
      split; [ reflexivity | ].
      intros token _ _. split; [ discriminate | intros _; reflexivity ].
  - cbn. split; [ reflexivity | ].
    intros token _ _. split; [ intros _; reflexivity | discriminate ].
Qed.

Lemma without_solana_only_free_calls_witness :
  let req := {| method := "POST"; path := "/call"; x_payment := Some "sig-paid";
                x_payment_chain := Some "base";
                body := JObject [("api", JString "echo"); ("params", JObject [])];
                payment := None |} in
  let r := paymentMiddleware Fixture.plat "NodeWallet" ["base"] Fixture.chain0 req
             initial_node in
  existsb is_chain_query (trace_of r) = false
  /\ r = (Normal None, initial_node,
          [EvRespond 402
             (JObject [("error", JString "Invalid payment");
                       ("message",
                        JString "Unsupported chain for payment verification.")])]).
Proof.
  cbv zeta.
  pose proof (without_solana_only_free_calls Fixture.plat "NodeWallet" ["base"]
                Fixture.chain0
                {| method := "POST"; path := "/call"; x_payment := Some "sig-paid";
                   x_payment_chain := Some "base";
                   body := JObject [("api", JString "echo"); ("params", JObject [])];
                   payment := None |}
                initial_node eq_refl) as [Hq Hrefused].
  split; [ exact Hq | ].
  refine (proj2 (Hrefused "sig-paid" _ _) eq_refl).
  - simpl. discriminate.
  - repeat split; discriminate.
Defined.

Lemma gate_verdict (P : Platform) (wallet : string)
    (supported : list string) (conn : Connection) (req : Request) (s : Node)
    (token : string) (v : VerifyResult) (queries : list Event) :
  path req <> "/health" ->
  proof_to_verify req token ->
  requested_chain req = "solana" ->
  includes supported "solana" = true ->
  verifySolanaOnChainPayment P token wallet (Some conn) s = (Normal v, s, queries) ->
  paymentMiddleware P wallet supported conn req s
  = if valid v
    then (Normal (Some (with_payment req
                          {| amount := v_amount v; from := v_from v;
                             signature := Some token; chain := "solana" |})),
          s, queries)
    else (Normal None, s, (queries ++ [invalid_payment_response v])%list).
Proof.
  intros Hpath (Htok & Hne & Hnf) Hchain Hsol Hver.
  apply String.eqb_neq in Hpath, Hne, Hnf.
  unfold paymentMiddleware, verifyPayment, providersConnection, invalid_payment_response.
  rewrite Hpath, Htok, Hne, Hnf, Hchain, Hsol.
  cbn [orb negb String.eqb Ascii.eqb Bool.eqb assoc].
  unfold bind, try_catch. rewrite Hver.
  destruct (valid v); cbn; rewrite ?app_nil_r; reflexivity.
Qed.

(** X18: on the Solana chain the gate passes the verifier's verdict on: a
    valid result becomes the [payment] member of the request passed to
    [next()] — the verified amount and sender, the proof token as signature
    — and an invalid one becomes a 402 carrying the verifier's error; the
    chain queries are those of the verifier. *)
Theorem gate_follows_verifier (P : Platform) (wallet : string)
    (supported : list string) (conn : Connection) (req : Request) (s : Node)
    (token : string) (v : VerifyResult) (queries : list Event) :
  path req <> "/health" ->
  proof_to_verify req token ->
  requested_chain req = "solana" ->
  includes supported "solana" = true ->
  verifySolanaOnChainPayment P token wallet (Some conn) s = (Normal v, s, queries) ->
  paymentMiddleware P wallet supported conn req s
  = (if valid v
     then (Normal (Some (with_payment req
                           {| amount := v_amount v; from := v_from v;
                              signature := Some token; chain := "solana" |})),
           s, queries)
     else (Normal None, s, (queries ++ [invalid_payment_response v])%list))
  /\ payment (with_payment req
                {| amount := v_amount v; from := v_from v;
                   signature := Some token; chain := "solana" |})
     = Some {| amount := v_amount v; from := v_from v;
               signature := Some token; chain := "solana" |}
  /\ body (with_payment req
             {| amount := v_amount v; from := v_from v;
                signature := Some token; chain := "solana" |})
     = body req.
Proof.
  intros Hpath Hproof Hchain Hsol Hver.
  split; [ | split; reflexivity ].
  exact (gate_verdict P wallet supported conn req s token v queries
           Hpath Hproof Hchain Hsol Hver).
Qed.

Lemma gate_follows_verifier_witness :
  let req := Fixture.call (Some "sig-paid") (JString "paid") (JObject []) in
  let claim := {| amount := Some 2.5%float; from := JString "PayerWallet";
                  signature := Some "sig-paid"; chain := "solana" |} in
  paymentMiddleware Fixture.plat "NodeWallet" ["solana"] Fixture.chain0 req initial_node
  = (Normal (Some (with_payment req claim)), initial_node,
     [EvGetParsedTransaction "sig-paid"; EvGetParsedAccountInfo "NodeTokenAccount"])
  /\ payment (with_payment req claim) = Some claim
  /\ body (with_payment req claim) = body req.
Proof.
  cbv zeta.
  apply (gate_follows_verifier Fixture.plat "NodeWallet" ["solana"] Fixture.chain0
           (Fixture.call (Some "sig-paid") (JString "paid") (JObject []))
           initial_node "sig-paid"
           {| valid := true; v_amount := Some 2.5%float;
              v_from := JString "PayerWallet";
              v_signature := Some "sig-paid"; v_error := None |}
           [EvGetParsedTransaction "sig-paid"; EvGetParsedAccountInfo "NodeTokenAccount"]).
  - simpl. discriminate.
  - repeat split; discriminate.
  - reflexivity.
  - reflexivity.
  - reflexivity.
Defined.

(** ** The verifier, continued *)

(** X19: the failures before the transfer is examined.  Without a connection
    the verifier answers at once, with no query.  With one, a transaction
    that is not found, a transaction that failed on-chain — whatever
    transfers it carries — and a query that fails each give an invalid
    result with their own error, after the single transaction query; a
    failed query is not thrown.  A query that never settles leaves the
    verifier waiting. *)
Theorem verify_lookup_failures (P : Platform) (sig wallet : string)
    (conn : Connection) (s : Node) :
  sig <> "" ->
  verifySolanaOnChainPayment P sig wallet None s
  = (Normal (invalid "Solana connection not established."), s, [])
  /\ (getParsedTransaction conn sig = Fulfilled None ->
        verifySolanaOnChainPayment P sig wallet (Some conn) s
        = (Normal (invalid "Transaction not found."), s, [EvGetParsedTransaction sig]))
  /\ (forall tx,
        getParsedTransaction conn sig = Fulfilled (Some tx) -> tx_failed tx = true ->
        verifySolanaOnChainPayment P sig wallet (Some conn) s
        = (Normal (invalid "Transaction failed on-chain."), s,
           [EvGetParsedTransaction sig]))
  /\ (forall e,
        getParsedTransaction conn sig = Rejected e ->
        verifySolanaOnChainPayment P sig wallet (Some conn) s
        = (Normal (invalid ("On-chain verification failed: "
                            ++ message_or "Unknown error" e)), s,
           [EvGetParsedTransaction sig]))
  /\ (getParsedTransaction conn sig = Pending ->
        verifySolanaOnChainPayment P sig wallet (Some conn) s
        = (Stuck, s, [EvGetParsedTransaction sig])).
Proof.
  intros Hsig. apply String.eqb_neq in Hsig.
  unfold verifySolanaOnChainPayment. rewrite Hsig.
  split; [ reflexivity | ].
  split; [ intros H; task_unfold; step H; reflexivity | ].
  split; [ intros tx H Hf; task_unfold; step H; step Hf; reflexivity | ].
  split; [ intros e H; task_unfold; step H; reflexivity | ].
  intros H; task_unfold; step H; reflexivity.
Qed.

Lemma verify_lookup_failures_witness :
  verifySolanaOnChainPayment Fixture.plat "sig-unknown" "NodeWallet"
    (Some Fixture.chain0) initial_node
  = (Normal (invalid "Transaction not found."), initial_node,
     [EvGetParsedTransaction "sig-unknown"]).
Proof.
  refine (proj1 (proj2 (verify_lookup_failures Fixture.plat "sig-unknown" "NodeWallet"
                          Fixture.chain0 initial_node _)) eq_refl).
  discriminate.
Defined.

(** ** Registration data *)













(** ** A paid call, end to end *)



